(** * Resume Roaster: the Lambda handler and its RAG pipeline

    A shallow embedding of [backend/handler.py] and [backend/rag_pipeline.py].

    The program is a linear orchestration over managed services and
    library utilities (object storage, the PDF loader, the recursive text
    splitter, the embedding model and FAISS, the chat model).  Those are
    not part of the repository; they are collected in the record [Env] as
    capabilities that either return a value or raise.  Everything the two
    source files do themselves (validation, exception handling, the
    retrieval loop, truncation, prompt assembly, cleanup, the response
    envelopes) is modelled as code in a state-and-exception monad over a
    [world] made of the scratch file system, the trace of prints and
    external calls, and the number of clock readings taken so far.

    Python [str] is modelled by [string], one [ascii] per character. *)

From Stdlib Require Import Ascii String QArith Qround.
From Stdlib Require Import Floats.SpecFloat.
From stdpp Require Import gmap strings list pretty.

Set Warnings "-register-all".
#[local] Open Scope string_scope.
#[local] Open Scope Z_scope.

(** ** Python values *)

(** The values [json.loads] produces, which are also the values found in
    the API Gateway event. *)
Inductive json : Type :=
  | JNull
  | JBool (b : bool)
  | JInt (z : Z)
  | JFloat (f : spec_float)
  | JStr (s : string)
  | JList (l : list json)
  | JObject (m : gmap string json).

(** Truth value of an object, as [all] and [not] test it. *)
Definition truthy (v : json) : bool :=
  match v with
  | JNull => false
  | JBool b => b
  | JInt z => negb (z =? 0)
  | JFloat (S754_zero _) => false
  | JFloat _ => true
  | JStr s => negb (String.eqb s "")
  | JList l => match l with [] => false | _ => true end
  | JObject m => negb (bool_decide (m = ∅))
  end.

Definition py_all (vs : list json) : bool := forallb truthy vs.

Definition type_name (v : json) : string :=
  match v with
  | JNull => "NoneType"
  | JBool _ => "bool"
  | JInt _ => "int"
  | JFloat _ => "float"
  | JStr _ => "str"
  | JList _ => "list"
  | JObject _ => "dict"
  end.

Definition nl : string := String "010"%char EmptyString.
Definition dq : string := String "034"%char EmptyString.
Definition sq : string := String "039"%char EmptyString.

(** [sep.join(parts)] *)
Fixpoint join (sep : string) (parts : list string) : string :=
  match parts with
  | [] => ""
  | [p] => p
  | p :: ps => p ++ sep ++ join sep ps
  end.

(** ** Exceptions *)

(** The handler tells [json.JSONDecodeError] from every other
    [Exception]; the other classes only matter through their name. *)
Inductive exn_type : Type :=
  | JSONDecodeError
  | TypeError
  | AttributeError
  | ValueError
  | OtherError (name : string).

(** An exception with the text [str(e)] gives. *)
Record exn : Type := Exn { exn_class : exn_type; exn_str : string }.

Inductive result (A : Type) : Type :=
  | Ok (a : A)
  | Raise (e : exn).
Arguments Ok {A} a.
Arguments Raise {A} e.

(** ** LangChain data *)

Record Document : Type :=
  { page_content : string; metadata : gmap string json }.

Record TextSplitter : Type :=
  { chunk_size : nat; chunk_overlap : nat; separators : list string }.

Record BedrockEmbeddings : Type := { embed_model_id : string }.

Record ChatBedrock : Type :=
  { model_id : string; max_tokens : Z; temperature : Q; top_p : Q }.

Record message : Type := { role : string; content : string }.

(** ** The world *)

Inductive event : Type :=
  | EvPrint (line : string)
  | EvDownload (bucket key : json) (filename : string)
  | EvLoadPdf (path : string)
  | EvSplit (splitter : TextSplitter) (pages : nat)
  | EvEmbed (embeddings : BedrockEmbeddings) (chunks : nat)
  | EvSearch (query : string) (k : nat)
  | EvInvoke (llm : ChatBedrock) (messages : list message)
  | EvRemove (path : string)
  | EvTraceback (e : exn).

(** [fs] maps the paths of the scratch storage to file contents. *)
Record world : Type :=
  World { fs : gmap string string; trace : list event; clock : nat }.

Definition emit (ev : event) (w : world) : world :=
  World (fs w) (trace w ++ [ev]) (clock w).

Definition set_fs (f : gmap string string) (w : world) : world :=
  World f (trace w) (clock w).

(** One more reading of the clock. *)
Definition tick (w : world) : world := World (fs w) (trace w) (S (clock w)).

(** ** External capabilities *)

Record Env : Type :=
  { VectorStore : Type;
    (* json.loads on a str *)
    json_decode : string → result json;
    (* str() of a value that is not a str *)
    str_of_value : json → string;
    (* the blob download_file writes to the given file, or its error *)
    download_file : json → json → string → result string;
    (* PyPDFLoader(path).load() on the contents of the file *)
    pdf_load : string → result (list Document);
    (* RecursiveCharacterTextSplitter.split_documents *)
    split_documents : TextSplitter → list Document → result (list Document);
    (* FAISS.from_documents *)
    from_documents : list Document → BedrockEmbeddings → result VectorStore;
    (* FAISS.similarity_search *)
    similarity_search : VectorStore → string → nat → result (list Document);
    (* ChatBedrock.invoke, giving response.content *)
    invoke : ChatBedrock → list message → result string;
    (* the error os.remove meets on a path, if any *)
    remove_error : string → option exn;
    (* the successive readings of time.time(), taken as rationals *)
    time_time : nat → Q }.

(** ** The monad of a Python function body *)

Definition M (A : Type) : Type := world → result A * world.

#[local] Instance M_ret : MRet M := λ A a w, (Ok a, w).
#[local] Instance M_bind : MBind M := λ A B f m w,
  match m w with
  | (Ok a, w') => f a w'
  | (Raise e, w') => (Raise e, w')
  end.

Definition raise {A} (e : exn) : M A := λ w, (Raise e, w).

Definition print (line : string) : M unit := λ w, (Ok (), emit (EvPrint line) w).

(** Calls a capability: records the call, then returns or raises. *)
Definition call {A} (ev : event) (r : result A) : M A := λ w, (r, emit ev w).

(** [try: m except Exception as e: ...], with the outcome made a value. *)
Definition try_ {A} (m : M A) : M (result A) := λ w,
  match m w with
  | (r, w') => (Ok r, w')
  end.

Definition lift {A} (r : result A) : M A := λ w, (r, w).

(** [str(v)], as an f-string formats a value. *)
Definition str (E : Env) (v : json) : string :=
  match v with
  | JStr s => s
  | _ => str_of_value E v
  end.

(** ** Library calls of the handler *)

Section Library.
Context (E : Env).

(** [json.loads(v)]: only a [str] is decoded. *)
Definition json_loads (v : json) : M json :=
  match v with
  | JStr s => lift (json_decode E s)
  | _ =>
      raise (Exn TypeError
        ("the JSON object must be str, bytes or bytearray, not " ++ type_name v))
  end.

(** [body.get(key)]: [None] for a missing key; only a dict has [get]. *)
Definition get (body : json) (key : string) : M json :=
  match body with
  | JObject m => mret (default JNull (m !! key))
  | _ =>
      raise (Exn AttributeError
        (sq ++ type_name body ++ sq ++ " object has no attribute " ++ sq ++ "get" ++ sq))
  end.

Definition no_such_file (path : string) : exn :=
  Exn (OtherError "FileNotFoundError")
      ("[Errno 2] No such file or directory: " ++ sq ++ path ++ sq).

(** [s3_client.download_file(bucket, key, filename)] *)
Definition s3_download_file (bucket key : json) (filename : string) : M unit :=
  λ w,
    let w := emit (EvDownload bucket key filename) w in
    match download_file E bucket key filename with
    | Ok blob => (Ok (), set_fs (<[filename := blob]> (fs w)) w)
    | Raise e => (Raise e, w)
    end.

Definition os_path_getsize (path : string) : M Z := λ w,
  match fs w !! path with
  | Some blob => (Ok (Z.of_nat (String.length blob)), w)
  | None => (Raise (no_such_file path), w)
  end.

Definition os_path_exists (path : string) : M bool := λ w,
  (Ok (bool_decide (is_Some (fs w !! path))), w).

Definition os_remove (path : string) : M unit := λ w,
  let w := emit (EvRemove path) w in
  match remove_error E path with
  | Some e => (Raise e, w)
  | None =>
      match fs w !! path with
      | Some _ => (Ok (), set_fs (delete path (fs w)) w)
      | None => (Raise (no_such_file path), w)
      end
  end.

(** [PyPDFLoader(file_path).load()] *)
Definition PyPDFLoader_load (file_path : string) : M (list Document) := λ w,
  let w := emit (EvLoadPdf file_path) w in
  match fs w !! file_path with
  | Some blob => (pdf_load E blob, w)
  | None =>
      (Raise (Exn ValueError
         ("File path " ++ file_path ++ " is not a valid file or url")), w)
  end.

Definition now : M Q := λ w, (Ok (time_time E (clock w)), tick w).
End Library.

(** [int(x)] of a number: rounds towards zero. *)
Definition int (x : Q) : Z := if Qle_bool 0 x then Qfloor x else Qceiling x.

(** ** rag_pipeline.py *)

Section RagPipeline.
Context (E : Env).

Definition load_pdf (file_path : string) : M (list Document) :=
  documents ← PyPDFLoader_load E file_path;
  print ("[RAG] Loaded " ++ pretty (length documents) ++ " pages from PDF");;
  mret documents.

(** The splitter measures length with [len]. *)
Definition text_splitter : TextSplitter :=
  {| chunk_size := 2000;
     chunk_overlap := 100;
     separators := [nl ++ nl; nl; " "; ""] |}.

Definition chunk_text (documents : list Document) : M (list Document) :=
  chunks ← call (EvSplit text_splitter (length documents))
                (split_documents E text_splitter documents);
  print ("[RAG] Created " ++ pretty (length chunks) ++ " chunks from "
           ++ pretty (length documents) ++ " pages");;
  mret chunks.

Definition embeddings : BedrockEmbeddings :=
  {| embed_model_id := "amazon.titan-embed-text-v1" |}.

Definition initialize_vectorstore (chunks : list Document) (request_id : json)
  : M (VectorStore E) :=
  print ("[RAG] Initializing FAISS vector store for request " ++ str E request_id);;
  vectorstore ← call (EvEmbed embeddings (length chunks))
                     (from_documents E chunks embeddings);
  print ("[RAG] Embedded " ++ pretty (length chunks) ++ " chunks into FAISS");;
  mret vectorstore.

Definition retrieve_context (vectorstore : VectorStore E) (query : string) (k : nat)
  : M (list Document) :=
  results ← call (EvSearch query k) (similarity_search E vectorstore query k);
  print ("[RAG] Retrieved " ++ pretty (length results) ++ " relevant chunks");;
  mret results.

Definition llm : ChatBedrock :=
  {| model_id := "us.anthropic.claude-3-5-sonnet-20241022-v2:0";
     max_tokens := 3000;
     temperature := 8 # 10;
     top_p := 9 # 10 |}.

Definition system_prompt : string :=
  "You are a witty Gen Z resume critic who keeps it real. Use Gen Z slang naturally (words like "
  ++ dq ++ "cooked" ++ dq ++ ", " ++ dq ++ "bro is..." ++ dq ++ ", "
  ++ dq ++ "you're cooked" ++ dq ++ ", " ++ dq ++ "fr fr" ++ dq ++ ", "
  ++ dq ++ "no cap" ++ dq ++ ", " ++ dq ++ "mid" ++ dq ++ ", "
  ++ dq ++ "it's giving..." ++ dq ++ ", etc)." ++ nl
  ++ nl
  ++ "CRITICAL CONTEXT: The current year is 2025/2026. When reviewing work experience, anything from 2023-2026 is recent and current. DO NOT refer to 2024 or 2025 as "
  ++ dq ++ "future" ++ dq
  ++ " - they are NOW or the recent past. Any content in brackets [] is for your information only and should not be displayed in your response." ++ nl
  ++ nl
  ++ "Your job is to roast resumes with brutal honesty while providing actionable feedback." ++ nl
  ++ "Be sarcastic but constructive. Point out clich" ++ String "233"%char EmptyString
  ++ "s, buzzwords, formatting issues, and weak accomplishments." ++ nl
  ++ nl
  ++ "Structure your roast in sections (put in subtitles):" ++ nl
  ++ "1. **Summary (Roast)** - Overall vibe check (2-3 sentences)" ++ nl
  ++ "2. **Experience Critique** - Call out weak bullets, buzzwords, vague accomplishments" ++ nl
  ++ "3. **Skills Assessment** - Roast generic skills, missing technical depth" ++ nl
  ++ "4. **Format & Style** - Comment on layout, length, readability" ++ nl
  ++ nl
  ++ "Keep the vibe casual but insightful - like a brutally honest friend reviewing their homie's resume." ++ nl
  ++ "End with 2-3 concrete actionable tips to actually improve the resume.".

Definition user_prompt (context resume_text : string) : string :=
  "Here's a resume that needs your honest roasting:" ++ nl
  ++ nl
  ++ "RESUME CONTENT:" ++ nl
  ++ substring 0 3000 resume_text ++ nl
  ++ nl
  ++ "RELEVANT SECTIONS (from vector search):" ++ nl
  ++ context ++ nl
  ++ nl
  ++ "Roast this resume with your signature Gen Z style. Be brutally honest but constructive.".

Definition generate_roast (context resume_text : string) : M string :=
  print "[RAG] Generating roast with Claude 3.5 Sonnet...";;
  let messages :=
    [ {| role := "system"; content := system_prompt |};
      {| role := "user"; content := user_prompt context resume_text |} ] in
  roast ← call (EvInvoke llm messages) (invoke E llm messages);
  print ("[RAG] Generated roast (" ++ pretty (String.length roast) ++ " chars)");;
  mret roast.

Definition extract_full_text (documents : list Document) : string :=
  join (nl ++ nl) (page_content <$> documents).
End RagPipeline.

(** ** handler.py *)

(** The API Gateway proxy response.  [body] holds the object the source
    hands to [json.dumps]; the text sent is its serialisation. *)
Record response : Type :=
  { statusCode : Z; headers : gmap string string; body : json }.

Definition cors_headers : gmap string string :=
  {[ "Content-Type" := "application/json";
     "Access-Control-Allow-Origin" := "*";
     "Access-Control-Allow-Headers" := "Content-Type,X-Api-Key";
     "Access-Control-Allow-Methods" := "POST,OPTIONS" ]}.

Definition success_response (request_id : json) (roast : string)
    (metadata : gmap string json) : response :=
  {| statusCode := 200;
     headers := cors_headers;
     body := JObject {[ "request_id" := request_id;
                        "roast" := JStr roast;
                        "metadata" := JObject metadata ]} |}.

Definition error_response (status_code : Z) (message : string) : response :=
  {| statusCode := status_code;
     headers := cors_headers;
     body := JObject {[ "error" := JStr message ]} |}.

Section Handler.
Context (E : Env).

Definition queries : list string :=
  [ "work experience and accomplishments";
    "skills and qualifications";
    "formatting and presentation issues" ].

(** The loop [for query in queries: all_context_docs.extend(retrieve_context(...))],
    started from the list gathered so far. *)
Fixpoint gather (vectorstore : VectorStore E) (qs : list string) (k : nat)
    (all_context_docs : list Document) : M (list Document) :=
  match qs with
  | [] => mret all_context_docs
  | query :: qs' =>
      context_docs ← retrieve_context E vectorstore query k;
      gather vectorstore qs' k (all_context_docs ++ context_docs)
  end.

(** The entries of the combined list that go into the prompt. *)
Definition context_entries (all_context_docs : list Document) : list Document :=
  take 5 all_context_docs.

Definition format_context (all_context_docs : list Document) : string :=
  join (nl ++ nl)
    (imap (λ i doc, "Section " ++ pretty (i + 1)%nat ++ ":" ++ nl ++ page_content doc)
          (context_entries all_context_docs)).

Definition cleanup (pdf_path : string) : M unit :=
  attempt ← try_ (
    present ← os_path_exists pdf_path;
    (if present : bool then os_remove E pdf_path else mret ());;
    print "[HANDLER] Cleaned up temporary files");
  match attempt with
  | Ok _ => mret ()
  | Raise e => print ("[HANDLER] Warning: Cleanup failed: " ++ exn_str e)
  end.

(** The body of the inner [try], around the download. *)
Definition fetch (s3_bucket s3_key : json) (pdf_path : string) : M unit :=
  s3_download_file E s3_bucket s3_key pdf_path;;
  file_size ← os_path_getsize pdf_path;
  print ("[HANDLER] Downloaded " ++ pretty file_size ++ " bytes").

(** The body of the outer [try]. *)
Definition lambda_handler_try (event : gmap string json) (start_time : Q)
  : M response :=
  print "[HANDLER] Parsing request body...";;
  body ← json_loads E (default (JStr "{}") (event !! "body"));
  s3_bucket ← get body "s3_bucket";
  s3_key ← get body "s3_key";
  request_id ← get body "request_id";
  if negb (py_all [s3_bucket; s3_key; request_id]) then
    mret (error_response 400 "Missing required fields: s3_bucket, s3_key, request_id")
  else
    print ("[HANDLER] Processing request " ++ str E request_id);;
    print ("[HANDLER] S3 location: s3://" ++ str E s3_bucket ++ "/" ++ str E s3_key);;
    let pdf_path := "/tmp/" ++ str E request_id ++ ".pdf" in
    print ("[HANDLER] Downloading PDF to " ++ pdf_path ++ "...");;
    fetched ← try_ (fetch s3_bucket s3_key pdf_path);
    match fetched with
    | Raise e =>
        mret (error_response 500 ("Failed to download PDF from S3: " ++ exn_str e))
    | Ok _ =>
        print "[HANDLER] Loading PDF...";;
        documents ← load_pdf E pdf_path;
        match documents with
        | [] => mret (error_response 400 "PDF appears to be empty or unreadable")
        | _ =>
            let full_text := extract_full_text documents in
            print "[HANDLER] Chunking text...";;
            chunks ← chunk_text E documents;
            print "[HANDLER] Initializing vector store...";;
            vectorstore ← initialize_vectorstore E chunks request_id;
            all_context_docs ← gather vectorstore queries 3 [];
            let context_text := format_context all_context_docs in
            print "[HANDLER] Generating roast...";;
            roast ← generate_roast E context_text full_text;
            t ← now E;
            let processing_time_ms := int ((t - start_time) * 1000) in
            cleanup pdf_path;;
            mret (success_response request_id roast
              {[ "chunks_processed" := JInt (Z.of_nat (length chunks));
                 "pages_processed" := JInt (Z.of_nat (length documents));
                 "processing_time_ms" := JInt processing_time_ms;
                 "model_used" := JStr "claude-3-5-sonnet-v2";
                 "embedding_model" := JStr "titan-embed-text-v1" ]})
        end
    end.

Definition lambda_handler (event : gmap string json) (w : world)
  : response * world :=
  match (start_time ← now E; lambda_handler_try event start_time) w with
  | (Ok r, w') => (r, w')
  | (Raise e, w') =>
      match exn_class e with
      | JSONDecodeError =>
          (error_response 400 "Invalid JSON in request body", w')
      | _ =>
          (error_response 500 ("Internal server error: " ++ exn_str e),
           emit (EvTraceback e)
             (emit (EvPrint ("[HANDLER] Unexpected error: " ++ exn_str e)) w'))
      end
  end.
End Handler.

(** ** A concrete deployment

    The end-to-end scenario of the specification: bucket [bucket1], key
    [resumes/a.pdf], request id [req-123].  The capabilities are fixed
    except for what the PDF loader, the chat model and [os.remove] do,
    which each scenario chooses. *)

Module Scenario.
Definition quoted (s : string) : string := dq ++ s ++ dq.

Definition request_text : string :=
  "{" ++ quoted "s3_bucket" ++ ": " ++ quoted "bucket1" ++ ", "
      ++ quoted "s3_key" ++ ": " ++ quoted "resumes/a.pdf" ++ ", "
      ++ quoted "request_id" ++ ": " ++ quoted "req-123" ++ "}".

Definition request : gmap string json :=
  {[ "s3_bucket" := JStr "bucket1";
     "s3_key" := JStr "resumes/a.pdf";
     "request_id" := JStr "req-123" ]}.

(** The same request with an empty key. *)
Definition keyless_text : string :=
  "{" ++ quoted "s3_bucket" ++ ": " ++ quoted "bucket1" ++ ", "
      ++ quoted "s3_key" ++ ": " ++ quoted "" ++ ", "
      ++ quoted "request_id" ++ ": " ++ quoted "req-123" ++ "}".

Definition keyless : gmap string json :=
  {[ "s3_bucket" := JStr "bucket1";
     "s3_key" := JStr "";
     "request_id" := JStr "req-123" ]}.

Definition event : gmap string json := {[ "body" := JStr request_text ]}.


Definition blob : string := "%PDF-1.4 two pages".

Definition page (n : Z) (text : string) : Document :=
  {| page_content := text;
     metadata := {[ "source" := JStr "/tmp/req-123.pdf"; "page" := JInt n ]} |}.

Definition pages : list Document :=
  [ page 0 "Jane Doe. Software engineer, 5 years of Python.";
    page 1 "Skills: teamwork, synergy, Microsoft Word." ].

Definition env (loaded : result (list Document)) (completion : result string)
    (rm : option exn) : Env :=
  {| VectorStore := list Document;
     json_decode := λ s,
       if String.eqb s "{}" then Ok (JObject ∅)
       else if String.eqb s request_text then Ok (JObject request)
       else if String.eqb s keyless_text then Ok (JObject keyless)
       else Raise (Exn JSONDecodeError "Expecting value: line 1 column 1 (char 0)");
     str_of_value := type_name;
     download_file := λ _ _ _, Ok blob;
     pdf_load := λ _, loaded;
     split_documents := λ _ docs, Ok docs;
     from_documents := λ chunks _,
       match chunks with
       | [] => Raise (Exn (OtherError "IndexError") "list index out of range")
       | _ => Ok chunks
       end;
     similarity_search := λ store _ k, Ok (take k store);
     invoke := λ _ _, completion;
     remove_error := λ _, rm;
     time_time := λ n, inject_Z (Z.of_nat n) |}.

Definition roast : string := "Bro listed Microsoft Word as a skill. It's giving 2009.".

(** Everything works. *)
Definition healthy : Env := env (Ok pages) (Ok roast) None.

(** The PDF has no page. *)
Definition blank : Env := env (Ok []) (Ok roast) None.

(** The file is not a PDF: the loader raises. *)
Definition corrupt_error : exn :=
  Exn (OtherError "PdfStreamError") "Stream has ended unexpectedly".
Definition corrupt : Env := env (Raise corrupt_error) (Ok roast) None.


(** The chat model is throttled. *)
Definition throttled_error : exn :=
  Exn (OtherError "ClientError")
      "An error occurred (ThrottlingException) when calling the InvokeModel operation".
Definition throttled : Env := env (Ok pages) (Raise throttled_error) None.

Definition cold : world := World ∅ [] 0.
End Scenario.


(** ** Vocabulary of the proofs

    Names for the worlds the steps of the pipeline lead to, for the runs of
    the handler and for the parts of a response. *)

Section Vocabulary.
Context (E : Env).

(** The trace only grows. *)
Definition extends (w w' : world) : Prop := trace w `prefix_of` trace w'.

Definition fetched (bucket key : json) (path blob : string) (w : world) : world :=
  emit (EvPrint ("[HANDLER] Downloaded "
                   ++ pretty (Z.of_nat (String.length blob)) ++ " bytes"))
    (set_fs (<[path := blob]> (fs w)) (emit (EvDownload bucket key path) w)).

Definition loaded (path : string) (documents : list Document) (w : world) : world :=
  emit (EvPrint ("[RAG] Loaded " ++ pretty (length documents) ++ " pages from PDF"))
    (emit (EvLoadPdf path) w).

Definition chunked (documents chunks : list Document) (w : world) : world :=
  emit (EvPrint ("[RAG] Created " ++ pretty (length chunks) ++ " chunks from "
                   ++ pretty (length documents) ++ " pages"))
    (emit (EvSplit text_splitter (length documents)) w).

Definition indexed (chunks : list Document) (request_id : json) (w : world) : world :=
  emit (EvPrint ("[RAG] Embedded " ++ pretty (length chunks) ++ " chunks into FAISS"))
    (emit (EvEmbed embeddings (length chunks))
       (emit (EvPrint ("[RAG] Initializing FAISS vector store for request "
                         ++ str E request_id)) w)).

(** [rs] are the answers of the searches for [qs], one list per query. *)
Definition answers (vectorstore : VectorStore E) (k : nat)
    (qs : list string) (rs : list (list Document)) : Prop :=
  Forall2 (λ q r, similarity_search E vectorstore q k = Ok r) qs rs.

(** What one pass of the loop body leaves in the trace. *)
Definition retrieval_events (k : nat) (q : string) (r : list Document) : list event :=
  [ EvSearch q k;
    EvPrint ("[RAG] Retrieved " ++ pretty (length r) ++ " relevant chunks") ].

Definition retrieval_trace (k : nat) (qs : list string) (rs : list (list Document))
  : list event :=
  concat (zip_with (retrieval_events k) qs rs).

Definition retrieved (k : nat) (qs : list string) (rs : list (list Document))
    (w : world) : world :=
  World (fs w) (trace w ++ retrieval_trace k qs rs) (clock w).

Definition messages (context resume_text : string) : list message :=
  [ {| role := "system"; content := system_prompt |};
    {| role := "user"; content := user_prompt context resume_text |} ].

Definition asked (context resume_text : string) (w : world) : world :=
  emit (EvInvoke llm (messages context resume_text))
    (emit (EvPrint "[RAG] Generating roast with Claude 3.5 Sonnet...") w).

Definition generated (context resume_text roast : string) (w : world) : world :=
  emit (EvPrint ("[RAG] Generated roast (" ++ pretty (String.length roast) ++ " chars)"))
    (asked context resume_text w).

Definition field (body : gmap string json) (key : string) : json :=
  default JNull (body !! key).

Definition scratch_path (body : gmap string json) : string :=
  "/tmp/" ++ str E (field body "request_id") ++ ".pdf".

Definition body_arg (event : gmap string json) : json :=
  default (JStr "{}") (event !! "body").

Record accepted (event body : gmap string json) : Prop :=
  { a_parsed : ∃ s, body_arg event = JStr s ∧ json_decode E s = Ok (JObject body);
    a_valid : py_all [field body "s3_bucket"; field body "s3_key";
                      field body "request_id"] = true }.

Record downloaded (event body : gmap string json) (blob : string) : Prop :=
  { d_accepted : accepted event body;
    d_fetch : download_file E (field body "s3_bucket") (field body "s3_key")
                (scratch_path body) = Ok blob }.

Definition started (w : world) : world :=
  emit (EvPrint "[HANDLER] Parsing request body...") (tick w).

Definition stored (body : gmap string json) (blob : string) (w : world) : world :=
  fetched (field body "s3_bucket") (field body "s3_key") (scratch_path body) blob
    (emit (EvPrint ("[HANDLER] Downloading PDF to " ++ scratch_path body ++ "..."))
       (emit (EvPrint ("[HANDLER] S3 location: s3://" ++ str E (field body "s3_bucket")
                         ++ "/" ++ str E (field body "s3_key")))
          (emit (EvPrint ("[HANDLER] Processing request "
                            ++ str E (field body "request_id")))
             (started w)))).

(** The values of the remaining local variables on a run that reaches
    the success response. *)
Record locals : Type :=
  { l_body : gmap string json;
    l_blob : string;
    l_documents : list Document;
    l_chunks : list Document;
    l_vectorstore : VectorStore E;
    l_results : list (list Document);
    l_roast : string }.

Definition l_all_context_docs (v : locals) : list Document :=
  concat (l_results v).

Definition l_messages (v : locals) : list message :=
  messages (format_context (l_all_context_docs v))
           (extract_full_text (l_documents v)).

(** Every step up to the chat model returned, with these values. *)
Record prompted (event : gmap string json) (v : locals) : Prop :=
  { c_downloaded : downloaded event (l_body v) (l_blob v);
    c_load : pdf_load E (l_blob v) = Ok (l_documents v);
    c_pages : l_documents v ≠ [];
    c_split : split_documents E text_splitter (l_documents v) = Ok (l_chunks v);
    c_index : from_documents E (l_chunks v) embeddings = Ok (l_vectorstore v);
    c_search : answers (l_vectorstore v) 3 queries (l_results v) }.

Record completes (event : gmap string json) (v : locals) : Prop :=
  { c_prompted : prompted event v;
    c_roast : invoke E llm (l_messages v) = Ok (l_roast v) }.

Definition l_metadata (v : locals) (processing_time_ms : Z) : gmap string json :=
  {[ "chunks_processed" := JInt (Z.of_nat (length (l_chunks v)));
     "pages_processed" := JInt (Z.of_nat (length (l_documents v)));
     "processing_time_ms" := JInt processing_time_ms;
     "model_used" := JStr "claude-3-5-sonnet-v2";
     "embedding_model" := JStr "titan-embed-text-v1" ]}.
End Vocabulary.

Arguments l_body {E} _.
Arguments l_blob {E} _.
Arguments l_documents {E} _.
Arguments l_chunks {E} _.
Arguments l_vectorstore {E} _.
Arguments l_results {E} _.
Arguments l_roast {E} _.
Arguments l_all_context_docs {E} _.
Arguments l_messages {E} _.
Arguments l_metadata {E} _ _.

Definition body_field (r : response) (key : string) : option json :=
  match body r with
  | JObject m => m !! key
  | _ => None
  end.

Definition metadata_field (r : response) (key : string) : option json :=
  match body_field r "metadata" with
  | Some (JObject m) => m !! key
  | _ => None
  end.

(** The paths [os.remove] was called on. *)
Definition removals (t : list event) : list string :=
  omap (λ ev, match ev with EvRemove path => Some path | _ => None end) t.

(** The local variables of the handler in the deployment, up to the call
    of the chat model, with [roast] for its answer. *)
Definition scenario_locals (E : Env) (store : VectorStore E) (roast : string)
  : locals E :=
  {| l_body := Scenario.request;
     l_blob := Scenario.blob;
     l_documents := Scenario.pages;
     l_chunks := Scenario.pages;
     l_vectorstore := store;
     l_results := [Scenario.pages; Scenario.pages; Scenario.pages];
     l_roast := roast |}.

(** ** Vocabulary of the further properties *)

(** A call to a capability or to the file system, as opposed to a line
    of the log. *)
Definition is_call (ev : event) : bool :=
  match ev with
  | EvPrint _ | EvTraceback _ => false
  | _ => true
  end.

(** The calls of a trace, in order. *)
Definition calls (t : list event) : list event := filter (λ ev, is_call ev) t.

(** [n] times the character [x]. *)
Fixpoint filler (n : nat) : string :=
  match n with
  | O => ""
  | S n' => String "x"%char (filler n')
  end.

(** A call of [os.remove]. *)
Definition is_removal (ev : event) : bool :=
  match ev with
  | EvRemove _ => true
  | _ => false
  end.

(** The path a call names: the target of the download, the file the
    loader opens, the file [os.remove] is called on. *)
Definition path_of (ev : event) : option string :=
  match ev with
  | EvDownload _ _ filename => Some filename
  | EvLoadPdf path => Some path
  | EvRemove path => Some path
  | _ => None
  end.

(** A relation between the world before a step and the world after it
    that holds along every step which only prints, reads the clock, or
    makes a call that names no path. *)
Class Invariant (R : world → world → Prop) : Prop :=
  { inv_refl : ∀ w, R w w;
    inv_trans : ∀ w1 w2 w3, R w1 w2 → R w2 w3 → R w1 w3;
    inv_emit : ∀ ev w, path_of ev = None → R w (emit ev w);
    inv_tick : ∀ w, R w (tick w) }.

(** [m] keeps [R], whether it returns or raises. *)
Definition preserves (R : world → world → Prop) `{!Invariant R} {A} (m : M A)
  : Prop :=
  ∀ w, R w (m w).2.

(** [m] returns a response of status 200 or keeps [R]. *)
Definition settles (R : world → world → Prop) `{!Invariant R} (m : M response)
  : Prop :=
  ∀ w, (∃ r, (m w).1 = Ok r ∧ statusCode r = 200) ∨ R w (m w).2.

(** [os.remove] was not called. *)
Definition no_removal (w w' : world) : Prop :=
  removals (trace w') = removals (trace w).

(** No file was written or removed and [os.remove] was not called. *)
Definition untouched (w w' : world) : Prop :=
  fs w' = fs w ∧ removals (trace w') = removals (trace w).

(** If the call [ev] names a path, the path is one of [Q]. *)
Definition names (Q : string → Prop) (ev : event) : Prop :=
  ∀ q, path_of ev = Some q → Q q.

(** The calls made from [w] to [w'] name paths of [Q] only. *)
Definition confined (Q : string → Prop) (w w' : world) : Prop :=
  ∃ t, trace w' = (trace w ++ t)%list ∧ Forall (names Q) t.

(** [q] is the scratch path of the request: the body of the event is the
    text of an object, and [q] is [/tmp/<request_id>.pdf] for it. *)
Definition requested (E : Env) (event : gmap string json) (q : string) : Prop :=
  ∃ s body, body_arg event = JStr s ∧ json_decode E s = Ok (JObject body)
            ∧ q = scratch_path E body.

(** Deployments in which one capability fails, and events with bodies
    other than the text of an object. *)
Module Faults.
Definition not_found : exn :=
  Exn (OtherError "ClientError")
      "An error occurred (404) when calling the HeadObject operation: Not Found".

Definition empty_index : exn :=
  Exn (OtherError "IndexError") "list index out of range".

Definition timed_out : exn :=
  Exn (OtherError "ReadTimeoutError") "Read timed out".

Definition garbled : exn :=
  Exn JSONDecodeError "Expecting value: line 1 column 1 (char 0)".

Definition denied : exn :=
  Exn (OtherError "PermissionError") "[Errno 13] Permission denied".

(** The deployment of [Scenario], with a decoder that also knows the
    text of the empty array, and with the download, the splitter and the
    searches left to choose. *)
Definition env (fetched : result string)
    (split : list Document → result (list Document))
    (search : string → list Document → nat → result (list Document))
    (completion : result string) (rm : option exn) : Env :=
  {| VectorStore := list Document;
     json_decode := λ s,
       if String.eqb s "[]" then Ok (JList [])
       else json_decode Scenario.healthy s;
     str_of_value := type_name;
     download_file := λ _ _ _, fetched;
     pdf_load := λ _, Ok Scenario.pages;
     split_documents := λ _ docs, split docs;
     from_documents := λ chunks _,
       match chunks with
       | [] => Raise empty_index
       | _ => Ok chunks
       end;
     similarity_search := λ store q k, search q store k;
     invoke := λ _ _, completion;
     remove_error := λ _, rm;
     time_time := λ n, inject_Z (Z.of_nat n) |}.

Definition top (q : string) (store : list Document) (k : nat)
  : result (list Document) := Ok (take k store).

(** The object is not in the bucket. *)
Definition missing_object : Env :=
  env (Raise not_found) Ok top (Ok Scenario.roast) None.

(** The splitter yields no chunk. *)
Definition no_chunks : Env :=
  env (Ok Scenario.blob) (λ _, Ok []) top (Ok Scenario.roast) None.

(** The second search times out. *)
Definition flaky_search (q : string) (store : list Document) (k : nat)
  : result (list Document) :=
  if String.eqb q "skills and qualifications" then Raise timed_out
  else Ok (take k store).
Definition flaky : Env :=
  env (Ok Scenario.blob) Ok flaky_search (Ok Scenario.roast) None.

(** The answer of the chat model cannot be decoded. *)
Definition undecodable : Env :=
  env (Ok Scenario.blob) Ok top (Raise garbled) None.

(** The scratch file cannot be removed. *)
Definition locked : Env :=
  env (Ok Scenario.blob) Ok top (Ok Scenario.roast) (Some denied).

(** Everything works. *)
Definition sound : Env :=
  env (Ok Scenario.blob) Ok top (Ok Scenario.roast) None.

Definition array_event : gmap string json := {[ "body" := JStr "[]" ]}.
Definition null_event : gmap string json := {[ "body" := JNull ]}.
Definition garbage_event : gmap string json := {[ "body" := JStr "not json" ]}.
End Faults.

(** ** Reasoning about the monad *)

Section MonadFacts.
Context {A B : Type}.

Lemma bind_ok (m : M A) (f : A → M B) w a w1 :
  m w = (Ok a, w1) → (m ≫= f) w = f a w1.
Proof. intros H. unfold mbind, M_bind. by rewrite H. Qed.

Lemma bind_raise (m : M A) (f : A → M B) w e w1 :
  m w = (Raise e, w1) → (m ≫= f) w = (Raise e, w1).
Proof. intros H. unfold mbind, M_bind. by rewrite H. Qed.

Lemma bind_ok_inv (m : M A) (f : A → M B) w b w2 :
  (m ≫= f) w = (Ok b, w2) →
  ∃ a w1, m w = (Ok a, w1) ∧ f a w1 = (Ok b, w2).
Proof.
  unfold mbind, M_bind. destruct (m w) as [[a|e] w1]; [eauto | discriminate].
Qed.

Lemma try_ok (m : M A) w (r : result A) w1 :
  m w = (r, w1) → try_ m w = (Ok r, w1).
Proof. intros H. unfold try_. by rewrite H. Qed.

Lemma try_inv (m : M A) w (r : result A) w1 :
  try_ m w = (Ok r, w1) → m w = (r, w1).
Proof. unfold try_. destruct (m w). congruence. Qed.
End MonadFacts.

#[local] Instance extends_refl : Reflexive extends.
Proof. intros w. unfold extends. done. Qed.

#[local] Instance extends_trans : Transitive extends.
Proof. intros w1 w2 w3. unfold extends. apply transitivity. Qed.

Lemma extends_emit ev w : extends w (emit ev w).
Proof. unfold extends. simpl. by apply prefix_app_r. Qed.

Lemma elem_of_extends ev w w' : ev ∈ trace w → extends w w' → ev ∈ trace w'.
Proof. intros Hin [k ->]. set_solver. Qed.

Lemma elem_of_emit ev w : ev ∈ trace (emit ev w).
Proof. simpl. set_solver. Qed.

(** Closes goals [extends w w'] where [w'] is [w] after some events. *)
Ltac extends_tac :=
  repeat first
    [ reflexivity
    | apply extends_emit
    | (etransitivity; [| apply extends_emit]) ].

(** ** The steps of the pipeline, one by one *)

Section Steps.
Context (E : Env).

Lemma json_loads_inv v w b w1 :
  json_loads E v w = (Ok b, w1) →
  ∃ s, v = JStr s ∧ json_decode E s = Ok b ∧ w1 = w.
Proof.
  destruct v; simpl; try discriminate. unfold lift. intros [= H <-]. eauto.
Qed.

Lemma get_inv body key w x w1 :
  get body key w = (Ok x, w1) →
  ∃ m, body = JObject m ∧ x = default JNull (m !! key) ∧ w1 = w.
Proof.
  destruct body; simpl; try discriminate. intros [= <- <-]. eauto.
Qed.

(** *** Download *)

Lemma fetch_ok bucket key path blob w :
  download_file E bucket key path = Ok blob →
  fetch E bucket key path w = (Ok (), fetched bucket key path blob w).
Proof.
  intros H. unfold fetch, mbind, M_bind, s3_download_file, os_path_getsize.
  rewrite H. cbn [fs set_fs emit]. by rewrite lookup_insert_eq.
Qed.

Lemma fetch_raise bucket key path e w :
  download_file E bucket key path = Raise e →
  fetch E bucket key path w = (Raise e, emit (EvDownload bucket key path) w).
Proof.
  intros H. unfold fetch, mbind, M_bind, s3_download_file. by rewrite H.
Qed.

Lemma fetch_inv bucket key path w w1 :
  fetch E bucket key path w = (Ok (), w1) →
  ∃ blob, download_file E bucket key path = Ok blob
          ∧ w1 = fetched bucket key path blob w.
Proof.
  intros H. destruct (download_file E bucket key path) as [blob|e] eqn:Hd.
  - rewrite (fetch_ok _ _ _ _ _ Hd) in H. injection H as <-. eauto.
  - rewrite (fetch_raise _ _ _ _ _ Hd) in H. discriminate.
Qed.

(** *** Text extraction *)

Lemma load_pdf_ok path blob documents w :
  fs w !! path = Some blob → pdf_load E blob = Ok documents →
  load_pdf E path w = (Ok documents, loaded path documents w).
Proof.
  intros Hfile Hload.
  unfold load_pdf, mbind, M_bind, PyPDFLoader_load, print, mret, M_ret.
  cbn [fs emit]. by rewrite Hfile, Hload.
Qed.

Lemma load_pdf_raise path blob e w :
  fs w !! path = Some blob → pdf_load E blob = Raise e →
  load_pdf E path w = (Raise e, emit (EvLoadPdf path) w).
Proof.
  intros Hfile Hload.
  unfold load_pdf, mbind, M_bind, PyPDFLoader_load.
  cbn [fs emit]. by rewrite Hfile, Hload.
Qed.

Lemma load_pdf_inv path blob documents w w1 :
  fs w !! path = Some blob →
  load_pdf E path w = (Ok documents, w1) →
  pdf_load E blob = Ok documents ∧ w1 = loaded path documents w.
Proof.
  intros Hfile H. destruct (pdf_load E blob) as [docs|e] eqn:Hload.
  - rewrite (load_pdf_ok _ _ _ _ Hfile Hload) in H. by injection H as <- <-.
  - rewrite (load_pdf_raise _ _ _ _ Hfile Hload) in H. discriminate.
Qed.

(** *** Chunking *)

Lemma chunk_text_ok documents chunks w :
  split_documents E text_splitter documents = Ok chunks →
  chunk_text E documents w = (Ok chunks, chunked documents chunks w).
Proof.
  intros H. unfold chunk_text, mbind, M_bind, call, print, mret, M_ret.
  by rewrite H.
Qed.

Lemma chunk_text_inv documents chunks w w1 :
  chunk_text E documents w = (Ok chunks, w1) →
  split_documents E text_splitter documents = Ok chunks
  ∧ w1 = chunked documents chunks w.
Proof.
  unfold chunk_text, mbind, M_bind, call, print, mret, M_ret.
  destruct (split_documents E text_splitter documents); [|discriminate].
  by intros [= <- <-].
Qed.

(** *** Indexing *)

Lemma initialize_vectorstore_ok chunks request_id vectorstore w :
  from_documents E chunks embeddings = Ok vectorstore →
  initialize_vectorstore E chunks request_id w
  = (Ok vectorstore, indexed E chunks request_id w).
Proof.
  intros H. unfold initialize_vectorstore, mbind, M_bind, call, print, mret, M_ret.
  by rewrite H.
Qed.

Lemma initialize_vectorstore_inv chunks request_id vectorstore w w1 :
  initialize_vectorstore E chunks request_id w = (Ok vectorstore, w1) →
  from_documents E chunks embeddings = Ok vectorstore
  ∧ w1 = indexed E chunks request_id w.
Proof.
  unfold initialize_vectorstore, mbind, M_bind, call, print, mret, M_ret.
  destruct (from_documents E chunks embeddings); [|discriminate].
  by intros [= <- <-].
Qed.

(** *** Retrieval *)

Lemma retrieve_context_ok vs q k r w :
  similarity_search E vs q k = Ok r →
  retrieve_context E vs q k w = (Ok r, retrieved k [q] [r] w).
Proof.
  intros H. unfold retrieve_context, mbind, M_bind, call, print, mret, M_ret, emit.
  rewrite H. unfold retrieved. simpl. by rewrite <- app_assoc.
Qed.

Lemma retrieve_context_raise vs q k e w :
  similarity_search E vs q k = Raise e →
  retrieve_context E vs q k w = (Raise e, emit (EvSearch q k) w).
Proof.
  intros H. unfold retrieve_context, mbind, M_bind, call. by rewrite H.
Qed.

Lemma gather_ok vs k qs : ∀ rs acc w,
  answers E vs k qs rs →
  gather E vs qs k acc w = (Ok (acc ++ concat rs)%list, retrieved k qs rs w).
Proof.
  induction qs as [|q qs IH]; intros rs acc w Hrs.
  - apply Forall2_nil_inv_l in Hrs as ->. simpl.
    unfold mret, M_ret, retrieved, retrieval_trace. simpl.
    rewrite !app_nil_r. by destruct w.
  - apply Forall2_cons_inv_l in Hrs as (r & rs' & Hr & Hrs' & ->).
    simpl. erewrite bind_ok; [|by apply retrieve_context_ok].
    rewrite (IH rs' _ _ Hrs'). simpl.
    unfold retrieved, retrieval_trace. simpl. by rewrite <- !app_assoc.
Qed.

Lemma gather_inv vs k qs : ∀ acc w all w1,
  gather E vs qs k acc w = (Ok all, w1) →
  ∃ rs, answers E vs k qs rs ∧ all = (acc ++ concat rs)%list
        ∧ w1 = retrieved k qs rs w.
Proof.
  induction qs as [|q qs IH]; intros acc w all w1 H.
  - exists []. split; [constructor|].
    rewrite (gather_ok vs k [] [] acc w) in H by constructor.
    by injection H as <- <-.
  - simpl in H. apply bind_ok_inv in H as (r & w2 & Hr & H).
    destruct (similarity_search E vs q k) as [r0|e] eqn:Hq.
    + rewrite (retrieve_context_ok _ _ _ _ _ Hq) in Hr.
      injection Hr as <- <-.
      apply IH in H as (rs & Hrs & -> & ->).
      exists (r0 :: rs). split; [by constructor|].
      split; [simpl; by rewrite <- app_assoc|].
      unfold retrieved, retrieval_trace. simpl. by rewrite <- !app_assoc.
    + rewrite (retrieve_context_raise _ _ _ _ _ Hq) in Hr. discriminate.
Qed.

Lemma extends_retrieved k qs rs w : extends w (retrieved k qs rs w).
Proof. unfold extends. simpl. by apply prefix_app_r. Qed.

Lemma length_context_entries all : (length (context_entries all) ≤ 5)%nat.
Proof. unfold context_entries. rewrite length_take. lia. Qed.

Lemma format_context_entries all :
  format_context all = format_context (context_entries all).
Proof. unfold format_context, context_entries. by rewrite take_take. Qed.

(** *** Generation *)

Lemma generate_roast_ok context resume_text roast w :
  invoke E llm (messages context resume_text) = Ok roast →
  generate_roast E context resume_text w
  = (Ok roast, generated context resume_text roast w).
Proof.
  intros H. unfold generate_roast, mbind, M_bind, call, print, mret, M_ret.
  fold (messages context resume_text). by rewrite H.
Qed.

Lemma generate_roast_raise context resume_text e w :
  invoke E llm (messages context resume_text) = Raise e →
  generate_roast E context resume_text w = (Raise e, asked context resume_text w).
Proof.
  intros H. unfold generate_roast, mbind, M_bind, call, print, mret, M_ret.
  fold (messages context resume_text). by rewrite H.
Qed.

Lemma generate_roast_inv context resume_text roast w w1 :
  generate_roast E context resume_text w = (Ok roast, w1) →
  invoke E llm (messages context resume_text) = Ok roast
  ∧ w1 = generated context resume_text roast w.
Proof.
  intros H.
  destruct (invoke E llm (messages context resume_text)) as [r|e] eqn:Hi.
  - rewrite (generate_roast_ok _ _ _ _ Hi) in H. by injection H as <- <-.
  - rewrite (generate_roast_raise _ _ _ _ Hi) in H. discriminate.
Qed.

(** *** Cleanup *)

(** Cleanup never raises.  The file is gone afterwards unless
    [os.remove] failed, in which case a warning is printed. *)
Lemma cleanup_returns path w :
  ∃ w', cleanup E path w = (Ok (), w')
        ∧ extends w w'
        ∧ fs w' = match remove_error E path with
                  | None => delete path (fs w)
                  | Some _ => fs w
                  end
        ∧ ∀ e blob, remove_error E path = Some e → fs w !! path = Some blob →
            EvPrint ("[HANDLER] Warning: Cleanup failed: " ++ exn_str e) ∈ trace w'.
Proof.
  unfold cleanup, try_, mbind, M_bind, os_path_exists, os_remove, print, mret, M_ret.
  destruct (fs w !! path) as [blob|] eqn:Hfile; simpl.
  - rewrite Hfile.
    destruct (remove_error E path) as [e|]; simpl; eexists; (split; [done|]);
      (split; [unfold extends; simpl; rewrite <- app_assoc; by apply prefix_app_r|]);
      (split; [done|]).
    + intros ? ? [= <-] _. set_solver.
    + intros ? ?. discriminate.
  - eexists. split; [done|]. split; [apply extends_emit|]. simpl. split.
    + destruct (remove_error E path); [done|]. by rewrite delete_id.
    + intros ? ? _. discriminate.
Qed.
End Steps.

(** ** The worlds the steps lead to *)

Section WorldFacts.
Context (E : Env).

Lemma now_inv t w w1 :
  now E w = (Ok t, w1) → t = time_time E (clock w) ∧ w1 = tick w.
Proof. by intros [= <- <-]. Qed.

Lemma fs_emit ev w : fs (emit ev w) = fs w.
Proof. reflexivity. Qed.
Lemma fs_tick w : fs (tick w) = fs w.
Proof. reflexivity. Qed.
Lemma fs_fetched bucket key path blob w :
  fs (fetched bucket key path blob w) = <[path := blob]> (fs w).
Proof. reflexivity. Qed.
Lemma fs_loaded path documents w : fs (loaded path documents w) = fs w.
Proof. reflexivity. Qed.
Lemma fs_chunked documents chunks w : fs (chunked documents chunks w) = fs w.
Proof. reflexivity. Qed.
Lemma fs_indexed chunks request_id w : fs (indexed E chunks request_id w) = fs w.
Proof. reflexivity. Qed.
Lemma fs_retrieved k qs rs w : fs (retrieved k qs rs w) = fs w.
Proof. reflexivity. Qed.
Lemma fs_asked context resume_text w : fs (asked context resume_text w) = fs w.
Proof. reflexivity. Qed.
Lemma fs_generated context resume_text roast w :
  fs (generated context resume_text roast w) = fs w.
Proof. reflexivity. Qed.

Lemma extends_tick w : extends w (tick w).
Proof. unfold extends. simpl. done. Qed.
Lemma extends_fetched bucket key path blob w :
  extends w (fetched bucket key path blob w).
Proof. unfold fetched. extends_tac. Qed.
Lemma extends_loaded path documents w : extends w (loaded path documents w).
Proof. unfold loaded. extends_tac. Qed.
Lemma extends_chunked documents chunks w : extends w (chunked documents chunks w).
Proof. unfold chunked. extends_tac. Qed.
Lemma extends_indexed chunks request_id w : extends w (indexed E chunks request_id w).
Proof. unfold indexed. extends_tac. Qed.
Lemma extends_asked context resume_text w : extends w (asked context resume_text w).
Proof. unfold asked. extends_tac. Qed.
Lemma extends_generated context resume_text roast w :
  extends w (generated context resume_text roast w).
Proof. unfold generated, asked. extends_tac. Qed.

Lemma embed_indexed chunks request_id w :
  EvEmbed embeddings (length chunks) ∈ trace (indexed E chunks request_id w).
Proof.
  unfold indexed. eapply elem_of_extends; [apply elem_of_emit | apply extends_emit].
Qed.

Lemma invoke_asked context resume_text w :
  EvInvoke llm (messages context resume_text) ∈ trace (asked context resume_text w).
Proof. unfold asked. apply elem_of_emit. Qed.

Lemma invoke_generated context resume_text roast w :
  EvInvoke llm (messages context resume_text)
  ∈ trace (generated context resume_text roast w).
Proof.
  unfold generated. eapply elem_of_extends; [apply invoke_asked | apply extends_emit].
Qed.
End WorldFacts.

(** The lemma for the outermost step of a world. *)
Ltac layer W k :=
  lazymatch W with
  | emit _ _ => k extends_emit
  | tick _ => k extends_tick
  | fetched _ _ _ _ _ => k extends_fetched
  | loaded _ _ _ => k extends_loaded
  | chunked _ _ _ => k extends_chunked
  | indexed _ _ _ _ => k extends_indexed
  | retrieved _ _ _ _ => k extends_retrieved
  | asked _ _ _ => k extends_asked
  | generated _ _ _ _ => k extends_generated
  end.

(** Closes goals [extends w w'] where [w'] is [w] after some steps. *)
Ltac grows :=
  repeat lazymatch goal with
    | |- extends _ ?W => layer W ltac:(fun lem => etransitivity; [| apply lem])
    end;
  reflexivity.

(** Finds the call to the embedding or the chat model in a trace. *)
Ltac occurs :=
  lazymatch goal with
  | |- EvEmbed _ _ ∈ trace (indexed _ _ _ _) => apply embed_indexed
  | |- EvInvoke _ _ ∈ trace (generated _ _ _ _) => apply invoke_generated
  | |- _ ∈ trace ?W =>
      layer W ltac:(fun lem => eapply elem_of_extends; [| apply lem]); occurs
  end.

(** ** The calls of a run *)

Lemma calls_app t1 t2 : calls (t1 ++ t2) = (calls t1 ++ calls t2)%list.
Proof. apply filter_app. Qed.

Lemma calls_emit ev w :
  calls (trace (emit ev w)) = (calls (trace w) ++ if is_call ev then [ev] else [])%list.
Proof. cbn [emit trace]. rewrite calls_app. by destruct ev. Qed.

Lemma calls_print line w : calls (trace (emit (EvPrint line) w)) = calls (trace w).
Proof. rewrite calls_emit. simpl. by rewrite app_nil_r. Qed.

Lemma calls_traceback e w : calls (trace (emit (EvTraceback e) w)) = calls (trace w).
Proof. rewrite calls_emit. simpl. by rewrite app_nil_r. Qed.

Lemma calls_tick w : calls (trace (tick w)) = calls (trace w).
Proof. reflexivity. Qed.

Lemma calls_fetched bucket key path blob w :
  calls (trace (fetched bucket key path blob w))
  = (calls (trace w) ++ [EvDownload bucket key path])%list.
Proof. unfold fetched. rewrite calls_print. cbn [set_fs trace]. by rewrite calls_emit. Qed.

Lemma calls_loaded path documents w :
  calls (trace (loaded path documents w)) = (calls (trace w) ++ [EvLoadPdf path])%list.
Proof. unfold loaded. by rewrite calls_print, calls_emit. Qed.

Lemma calls_chunked documents chunks w :
  calls (trace (chunked documents chunks w))
  = (calls (trace w) ++ [EvSplit text_splitter (length documents)])%list.
Proof. unfold chunked. by rewrite calls_print, calls_emit. Qed.

Lemma calls_indexed E chunks request_id w :
  calls (trace (indexed E chunks request_id w))
  = (calls (trace w) ++ [EvEmbed embeddings (length chunks)])%list.
Proof. unfold indexed. by rewrite calls_print, calls_emit, calls_print. Qed.

Lemma calls_retrieval_trace k qs : ∀ rs,
  length rs = length qs →
  calls (retrieval_trace k qs rs) = (λ q, EvSearch q k) <$> qs.
Proof.
  unfold retrieval_trace.
  induction qs as [|q qs IH]; intros [|r rs] Hlen; try done.
  cbn [zip_with concat]. rewrite calls_app, IH by (simpl in Hlen; lia). done.
Qed.

Lemma calls_retrieved k qs rs w :
  length rs = length qs →
  calls (trace (retrieved k qs rs w))
  = (calls (trace w) ++ ((λ q, EvSearch q k) <$> qs))%list.
Proof.
  intros Hlen. unfold retrieved. cbn [trace].
  by rewrite calls_app, calls_retrieval_trace.
Qed.

Lemma calls_asked context resume_text w :
  calls (trace (asked context resume_text w))
  = (calls (trace w) ++ [EvInvoke llm (messages context resume_text)])%list.
Proof. unfold asked. by rewrite calls_emit, calls_print. Qed.

Lemma calls_generated context resume_text roast w :
  calls (trace (generated context resume_text roast w))
  = (calls (trace w) ++ [EvInvoke llm (messages context resume_text)])%list.
Proof. unfold generated. by rewrite calls_print, calls_asked. Qed.

Lemma calls_started w : calls (trace (started w)) = calls (trace w).
Proof. unfold started. by rewrite calls_print. Qed.

Lemma calls_stored E body blob w :
  calls (trace (stored E body blob w))
  = (calls (trace w)
     ++ [EvDownload (field body "s3_bucket") (field body "s3_key")
           (scratch_path E body)])%list.
Proof. unfold stored. by rewrite calls_fetched, !calls_print, calls_started. Qed.

(** ** What the steps keep *)

Lemma removals_emit ev w :
  is_removal ev = false → removals (trace (emit ev w)) = removals (trace w).
Proof.
  intros Hev. unfold removals, emit. cbn [trace]. rewrite omap_app.
  destruct ev; try discriminate; cbn; by rewrite app_nil_r.
Qed.

Lemma removals_app t1 t2 : removals (t1 ++ t2) = (removals t1 ++ removals t2)%list.
Proof. apply omap_app. Qed.

Lemma removals_calls t : removals (calls t) = removals t.
Proof.
  unfold removals, calls. induction t as [|ev t IH]; [done|].
  rewrite filter_cons.
  destruct (decide (is_call ev)) as [H|H]; destruct ev; cbn in *;
    try done; by rewrite ?IH.
Qed.

#[local] Instance no_removal_invariant : Invariant no_removal.
Proof.
  split; unfold no_removal; intros; try by etrans.
  apply removals_emit. by destruct ev.
Qed.

#[local] Instance untouched_invariant : Invariant untouched.
Proof.
  split; unfold untouched.
  - done.
  - intros w1 w2 w3 [-> ->] [-> ->]. done.
  - intros ev w Hev. split; [done|]. apply removals_emit. by destruct ev.
  - done.
Qed.

#[local] Instance confined_invariant Q : Invariant (confined Q).
Proof.
  split; unfold confined.
  - intros w. exists []. by rewrite app_nil_r.
  - intros w1 w2 w3 (t1 & -> & H1) (t2 & -> & H2).
    exists (t1 ++ t2)%list. rewrite app_assoc. split; [done|].
    by apply Forall_app.
  - intros ev w Hev. exists [ev]. split; [done|].
    apply Forall_singleton. intros q Hq. congruence.
  - intros w. exists []. by rewrite app_nil_r.
Qed.

Section Invariants.
Context (E : Env) (R : world → world → Prop) `{!Invariant R}.

Lemma preserves_ret {A} (a : A) : preserves R (mret a).
Proof. intros w. apply inv_refl. Qed.

Lemma preserves_raise {A} e : preserves R (raise e : M A).
Proof. intros w. apply inv_refl. Qed.

Lemma preserves_lift {A} (r : result A) : preserves R (lift r).
Proof. intros w. apply inv_refl. Qed.

Lemma preserves_print line : preserves R (print line).
Proof. intros w. by apply inv_emit. Qed.

Lemma preserves_call {A} ev (r : result A) :
  path_of ev = None → preserves R (call ev r).
Proof. intros Hev w. by apply inv_emit. Qed.

Lemma preserves_now : preserves R (now E).
Proof. intros w. apply inv_tick. Qed.

Lemma preserves_bind {A B} (m : M A) (k : A → M B) :
  preserves R m → (∀ a, preserves R (k a)) → preserves R (m ≫= k).
Proof.
  intros Hm Hk w. unfold mbind, M_bind. specialize (Hm w).
  destruct (m w) as [[a|e] w1]; cbn [snd] in *; [|done].
  eapply inv_trans; [exact Hm | apply Hk].
Qed.

Lemma preserves_bind_ok {A B} (m : M A) (k : A → M B) a :
  (∀ w, m w = (Ok a, w)) → preserves R (k a) → preserves R (m ≫= k).
Proof.
  intros Hm Hk w. unfold mbind, M_bind. rewrite Hm. apply Hk.
Qed.

Lemma preserves_try {A} (m : M A) : preserves R m → preserves R (try_ m).
Proof.
  intros Hm w. unfold try_. specialize (Hm w). by destruct (m w).
Qed.

Lemma preserves_json_loads v : preserves R (json_loads E v).
Proof. destruct v; first [apply preserves_lift | apply preserves_raise]. Qed.

Lemma preserves_get body key : preserves R (get body key).
Proof. destruct body; first [apply preserves_ret | apply preserves_raise]. Qed.

Lemma preserves_os_path_getsize path : preserves R (os_path_getsize path).
Proof.
  intros w. unfold os_path_getsize. destruct (fs w !! path); apply inv_refl.
Qed.

Lemma preserves_os_path_exists path : preserves R (os_path_exists path).
Proof. intros w. apply inv_refl. Qed.

Lemma preserves_PyPDFLoader_load path :
  (∀ w, R w (emit (EvLoadPdf path) w)) → preserves R (PyPDFLoader_load E path).
Proof.
  intros Hload w. unfold PyPDFLoader_load. cbn [fs emit].
  destruct (fs w !! path); apply Hload.
Qed.
End Invariants.

(** Splits a goal [preserves R m] along the binds of [m]; the steps that
    name a path are left to the hypotheses. *)
Ltac preserve :=
  repeat first
    [ assumption
    | apply preserves_ret | apply preserves_raise | apply preserves_lift
    | apply preserves_print | apply preserves_now
    | apply preserves_call; reflexivity
    | apply preserves_json_loads | apply preserves_get
    | apply preserves_os_path_getsize | apply preserves_os_path_exists
    | apply preserves_PyPDFLoader_load
    | apply preserves_try
    | apply preserves_bind; [|intros ?] ].

Section Pipeline.
Context (E : Env) (R : world → world → Prop) `{!Invariant R}.

Lemma preserves_load_pdf path :
  (∀ w, R w (emit (EvLoadPdf path) w)) → preserves R (load_pdf E path).
Proof. intros Hload. unfold load_pdf. preserve. Qed.

Lemma preserves_chunk_text documents : preserves R (chunk_text E documents).
Proof. unfold chunk_text. preserve. Qed.

Lemma preserves_initialize_vectorstore chunks request_id :
  preserves R (initialize_vectorstore E chunks request_id).
Proof. unfold initialize_vectorstore. preserve. Qed.

Lemma preserves_retrieve_context vs query k :
  preserves R (retrieve_context E vs query k).
Proof. unfold retrieve_context. preserve. Qed.

Lemma preserves_gather vs qs k : ∀ acc, preserves R (gather E vs qs k acc).
Proof.
  induction qs as [|query qs IH]; intros acc; cbn [gather].
  - apply preserves_ret.
  - apply preserves_bind; [apply preserves_retrieve_context | intros ?; apply IH].
Qed.

Lemma preserves_generate_roast context resume_text :
  preserves R (generate_roast E context resume_text).
Proof. unfold generate_roast. preserve. Qed.

Lemma settles_ret r : settles R (mret r).
Proof. intros w. right. apply inv_refl. Qed.

Lemma settles_bind {A} (m : M A) (k : A → M response) :
  preserves R m → (∀ a, settles R (k a)) → settles R (m ≫= k).
Proof.
  intros Hm Hk w. unfold mbind, M_bind. specialize (Hm w).
  destruct (m w) as [[a|e] w1]; cbn [snd] in *; [|by right].
  destruct (Hk a w1) as [Hok | Hkeep]; [by left|].
  right. by eapply inv_trans.
Qed.

(** The last step of the success path. *)
Lemma settles_success path request_id roast md :
  settles R (cleanup E path;; mret (success_response request_id roast md)).
Proof.
  intros w. left.
  destruct (cleanup_returns E path w) as (w1 & Hclean & _).
  erewrite bind_ok by exact Hclean. by eexists.
Qed.

(** What follows a download that returned. *)
Lemma settles_pipeline request_id pdf_path start_time :
  (∀ w, R w (emit (EvLoadPdf pdf_path) w)) →
  settles R
    (print "[HANDLER] Loading PDF...";;
     documents ← load_pdf E pdf_path;
     match documents with
     | [] => mret (error_response 400 "PDF appears to be empty or unreadable")
     | _ =>
         let full_text := extract_full_text documents in
         print "[HANDLER] Chunking text...";;
         chunks ← chunk_text E documents;
         print "[HANDLER] Initializing vector store...";;
         vectorstore ← initialize_vectorstore E chunks request_id;
         all_context_docs ← gather E vectorstore queries 3 [];
         let context_text := format_context all_context_docs in
         print "[HANDLER] Generating roast...";;
         roast ← generate_roast E context_text full_text;
         t ← now E;
         let processing_time_ms := int ((t - start_time) * 1000) in
         cleanup E pdf_path;;
         mret (success_response request_id roast
           {[ "chunks_processed" := JInt (Z.of_nat (length chunks));
              "pages_processed" := JInt (Z.of_nat (length documents));
              "processing_time_ms" := JInt processing_time_ms;
              "model_used" := JStr "claude-3-5-sonnet-v2";
              "embedding_model" := JStr "titan-embed-text-v1" ]})
     end).
Proof.
  intros Hload.
  apply settles_bind; [apply preserves_print | intros _].
  apply settles_bind; [by apply preserves_load_pdf | intros documents].
  destruct documents; [apply settles_ret|]. cbv zeta.
  apply settles_bind; [apply preserves_print | intros _].
  apply settles_bind; [apply preserves_chunk_text | intros chunks].
  apply settles_bind; [apply preserves_print | intros _].
  apply settles_bind; [apply preserves_initialize_vectorstore | intros vs].
  apply settles_bind; [apply preserves_gather | intros docs].
  apply settles_bind; [apply preserves_print | intros _].
  apply settles_bind; [apply preserves_generate_roast | intros roast].
  apply settles_bind; [apply preserves_now | intros t].
  apply settles_success.
Qed.

Lemma settles_lambda_handler_try event start_time :
  (∀ bucket key path, preserves R (fetch E bucket key path)) →
  (∀ path w, R w (emit (EvLoadPdf path) w)) →
  settles R (lambda_handler_try E event start_time).
Proof.
  intros Hfetch Hload. unfold lambda_handler_try.
  apply settles_bind; [apply preserves_print | intros _].
  apply settles_bind; [apply preserves_json_loads | intros body].
  do 3 (apply settles_bind; [apply preserves_get | intros ?]).
  destruct (negb _); [apply settles_ret|].
  do 3 (apply settles_bind; [apply preserves_print | intros _]).
  apply settles_bind; [apply preserves_try, Hfetch | intros fetched].
  destruct fetched; [apply settles_pipeline, Hload | apply settles_ret].
Qed.

(** From the body of the [try] to the handler: the two [except] clauses
    print and answer with status 400 or 500. *)
Lemma settles_lambda_handler event w :
  settles R (start_time ← now E; lambda_handler_try E event start_time) →
  statusCode (lambda_handler E event w).1 ≠ 200 →
  R w (lambda_handler E event w).2.
Proof.
  intros Hrun. specialize (Hrun w). unfold lambda_handler.
  destruct ((now E ≫= _) w) as [[r|e] w1]; cbn [fst snd] in *.
  - intros Hstatus. destruct Hrun as [(r' & [= <-] & Hok) | Hkeep]; done.
  - intros _. destruct Hrun as [(r' & [=] & _) | Hkeep].
    destruct (exn_class e); cbn [snd]; try done;
      (eapply inv_trans; [exact Hkeep|]);
      (eapply inv_trans; apply inv_emit; reflexivity).
Qed.

Lemma preserves_lambda_handler event w :
  preserves R (start_time ← now E; lambda_handler_try E event start_time) →
  R w (lambda_handler E event w).2.
Proof.
  intros Hrun. specialize (Hrun w). unfold lambda_handler.
  destruct ((now E ≫= _) w) as [[r|e] w1]; cbn [fst snd] in *; [done|].
  destruct (exn_class e); cbn [snd]; try done;
    (eapply inv_trans; [exact Hrun|]);
    (eapply inv_trans; apply inv_emit; reflexivity).
Qed.
End Pipeline.

(** *** No removal *)

Lemma no_removal_fetch E bucket key path :
  preserves no_removal (fetch E bucket key path).
Proof.
  unfold fetch.
  apply preserves_bind; [|intros _; preserve].
  intros w. unfold s3_download_file, no_removal.
  destruct (download_file E bucket key path); cbn [snd set_fs trace];
    by apply removals_emit.
Qed.

Lemma no_removal_lambda_handler E event w :
  statusCode (lambda_handler E event w).1 ≠ 200 →
  removals (trace (lambda_handler E event w).2) = removals (trace w).
Proof.
  apply (settles_lambda_handler E no_removal).
  apply settles_bind; [apply preserves_now | intros t].
  apply settles_lambda_handler_try.
  - intros. apply no_removal_fetch.
  - intros path w0. by apply removals_emit.
Qed.

Lemma untouched_load path w : untouched w (emit (EvLoadPdf path) w).
Proof. split; [done|]. by apply removals_emit. Qed.

(** *** The paths of the calls *)

Section Paths.
Context (E : Env) (Q : string → Prop).

Lemma confined_emit ev w : names Q ev → confined Q w (emit ev w).
Proof.
  intros Hev. exists [ev]. split; [done|]. by apply Forall_singleton.
Qed.

Lemma confined_s3_download_file bucket key filename :
  Q filename → preserves (confined Q) (s3_download_file E bucket key filename).
Proof.
  intros Hq w. unfold s3_download_file.
  destruct (download_file E bucket key filename); cbn [snd];
    (exists [EvDownload bucket key filename]; split; [done|]);
    apply Forall_singleton; by intros q [= <-].
Qed.

Lemma confined_os_remove path : Q path → preserves (confined Q) (os_remove E path).
Proof.
  intros Hq w. unfold os_remove. cbn [fs emit].
  destruct (remove_error E path); [|destruct (fs w !! path)]; cbn [snd];
    (exists [EvRemove path]; split; [done|]);
    apply Forall_singleton; by intros q [= <-].
Qed.

Lemma confined_load path w : Q path → confined Q w (emit (EvLoadPdf path) w).
Proof. intros Hq. apply confined_emit. by intros q [= <-]. Qed.

Lemma confined_fetch bucket key path :
  Q path → preserves (confined Q) (fetch E bucket key path).
Proof.
  intros Hq. unfold fetch.
  apply preserves_bind; [by apply confined_s3_download_file | intros _].
  preserve.
Qed.

Lemma confined_cleanup path : Q path → preserves (confined Q) (cleanup E path).
Proof.
  intros Hq. unfold cleanup. apply preserves_bind.
  - apply preserves_try.
    apply preserves_bind; [apply preserves_os_path_exists | intros present].
    apply preserves_bind; [|intros _; apply preserves_print].
    destruct present; [by apply confined_os_remove | apply preserves_ret].
  - intros [[]|e]; preserve.
Qed.
End Paths.

Lemma confined_lambda_handler_try E event start_time :
  preserves (confined (requested E event)) (lambda_handler_try E event start_time).
Proof.
  unfold lambda_handler_try. fold (body_arg event).
  apply preserves_bind; [apply preserves_print | intros _].
  destruct (body_arg event) as [| | | |s| |] eqn:Harg;
    try (intros w; exists []; by rewrite app_nil_r).
  cbn [json_loads].
  destruct (json_decode E s) as [body|e] eqn:Hdec.
  2: { intros w. exists []. by rewrite app_nil_r. }
  destruct body as [| | | | | |body];
    try (intros w; exists []; by rewrite app_nil_r).
  assert (requested E event (scratch_path E body)) as Hq
    by (by exists s, body).
  unfold scratch_path, field in Hq.
  do 4 (eapply preserves_bind_ok; [intros ?; reflexivity|]).
  destruct (negb _); [apply preserves_ret|].
  do 3 (apply preserves_bind; [apply preserves_print | intros _]).
  apply preserves_bind; [by apply preserves_try, confined_fetch | intros fetched].
  destruct fetched; [|apply preserves_ret].
  apply preserves_bind; [apply preserves_print | intros _].
  apply preserves_bind;
    [apply preserves_load_pdf; intros w; by apply confined_load | intros documents].
  destruct documents; [apply preserves_ret|]. cbv zeta.
  apply preserves_bind; [apply preserves_print | intros _].
  apply preserves_bind; [apply preserves_chunk_text | intros chunks].
  apply preserves_bind; [apply preserves_print | intros _].
  apply preserves_bind; [apply preserves_initialize_vectorstore | intros vs].
  apply preserves_bind; [apply preserves_gather | intros docs].
  apply preserves_bind; [apply preserves_print | intros _].
  apply preserves_bind; [apply preserves_generate_roast | intros roast].
  apply preserves_bind; [apply preserves_now | intros t].
  apply preserves_bind; [by apply confined_cleanup | intros _].
  apply preserves_ret.
Qed.

Lemma confined_lambda_handler E event w :
  confined (requested E event) w (lambda_handler E event w).2.
Proof.
  apply (preserves_lambda_handler E (confined (requested E event))).
  apply preserves_bind; [apply preserves_now | intros t].
  apply confined_lambda_handler_try.
Qed.

(** ** Runs of the handler *)

Section Runs.
Context (E : Env).

Lemma fs_stored body blob w :
  fs (stored E body blob w) = <[scratch_path E body := blob]> (fs w).
Proof. reflexivity. Qed.

Lemma extends_stored body blob w : extends w (stored E body blob w).
Proof. unfold stored, started. grows. Qed.

Ltac worlds :=
  repeat first
    [ rewrite fs_emit | rewrite fs_tick | rewrite fs_generated | rewrite fs_asked
    | rewrite fs_retrieved | rewrite fs_indexed | rewrite fs_chunked
    | rewrite fs_loaded | rewrite fs_stored ].

(** Runs the handler up to the validation of the fields. *)
Ltac enter event body w Hparsed :=
  let s := fresh "s" in let Hs := fresh "Hs" in let Hdec := fresh "Hdec" in
  destruct Hparsed as (s & Hs & Hdec);
  unfold lambda_handler;
  erewrite (bind_ok (now E)) by reflexivity;
  unfold lambda_handler_try;
  erewrite bind_ok by reflexivity;
  fold (body_arg event); rewrite Hs;
  erewrite bind_ok by (cbn [json_loads]; unfold lift; rewrite Hdec; reflexivity);
  do 3 (erewrite bind_ok by reflexivity);
  fold (field body "s3_bucket") (field body "s3_key") (field body "request_id");
  fold (started w).

(** Runs it up to the call of [load_pdf]. *)
Ltac download event body blob w Hdown :=
  let Hparsed := fresh "Hparsed" in let Hvalid := fresh "Hvalid" in
  let Hdl := fresh "Hdl" in
  destruct Hdown as [[Hparsed Hvalid] Hdl];
  enter event body w Hparsed;
  rewrite Hvalid; cbn [negb];
  do 3 (erewrite bind_ok by reflexivity);
  fold (scratch_path E body);
  erewrite bind_ok by (apply try_ok, fetch_ok, Hdl);
  cbv iota;
  fold (stored E body blob w);
  erewrite bind_ok by reflexivity.

Lemma rejected event body w :
  (∃ s, body_arg event = JStr s ∧ json_decode E s = Ok (JObject body)) →
  py_all [field body "s3_bucket"; field body "s3_key"; field body "request_id"]
    = false →
  lambda_handler E event w
  = (error_response 400 "Missing required fields: s3_bucket, s3_key, request_id",
     started w).
Proof.
  intros Hparsed Hvalid. enter event body w Hparsed. by rewrite Hvalid.
Qed.

Lemma unreadable event body blob w :
  downloaded E event body blob → pdf_load E blob = Ok [] →
  ∃ w', lambda_handler E event w
        = (error_response 400 "PDF appears to be empty or unreadable", w')
        ∧ fs w' = <[scratch_path E body := blob]> (fs w).
Proof.
  intros Hdown Hload. download event body blob w Hdown.
  erewrite bind_ok by (eapply load_pdf_ok; [worlds; apply lookup_insert_eq|exact Hload]).
  eexists. split; [reflexivity|]. by worlds.
Qed.

Lemma unparsable event body blob e w :
  downloaded E event body blob → pdf_load E blob = Raise e →
  exn_class e ≠ JSONDecodeError →
  ∃ w', lambda_handler E event w
        = (error_response 500 ("Internal server error: " ++ exn_str e), w')
        ∧ fs w' = <[scratch_path E body := blob]> (fs w).
Proof.
  intros Hdown Hload Hclass. download event body blob w Hdown.
  erewrite bind_raise
    by (eapply load_pdf_raise; [worlds; apply lookup_insert_eq|exact Hload]).
  destruct (exn_class e); try done; (eexists; split; [reflexivity|]; by worlds).
Qed.

(** Runs it up to the call of [generate_roast]. *)
Ltac prompt event v w Hprompted :=
  let Hdown := fresh "Hdown" in let Hload := fresh "Hload" in
  let Hpages := fresh "Hpages" in let Hsplit := fresh "Hsplit" in
  let Hindex := fresh "Hindex" in let Hsearch := fresh "Hsearch" in
  destruct Hprompted as [Hdown Hload Hpages Hsplit Hindex Hsearch];
  download event (l_body v) (l_blob v) w Hdown;
  erewrite bind_ok by (eapply load_pdf_ok; [worlds; apply lookup_insert_eq|exact Hload]);
  destruct (l_documents v) as [|d ds] eqn:Hdocs; [done|]; rewrite <- Hdocs in *;
  erewrite bind_ok by reflexivity;
  erewrite bind_ok by (apply chunk_text_ok, Hsplit);
  erewrite bind_ok by reflexivity;
  erewrite bind_ok by (apply initialize_vectorstore_ok, Hindex);
  erewrite bind_ok by (apply gather_ok, Hsearch);
  erewrite bind_ok by reflexivity;
  change ([] ++ concat (l_results v))%list with (l_all_context_docs v).


Lemma succeeds event v w :
  completes E event v →
  ∃ ms w', lambda_handler E event w
           = (success_response (field (l_body v) "request_id") (l_roast v)
                (l_metadata v ms), w')
        ∧ fs w' = match remove_error E (scratch_path E (l_body v)) with
                  | None => delete (scratch_path E (l_body v)) (fs w)
                  | Some _ => <[scratch_path E (l_body v) := l_blob v]> (fs w)
                  end
        ∧ ∀ e, remove_error E (scratch_path E (l_body v)) = Some e →
            EvPrint ("[HANDLER] Warning: Cleanup failed: " ++ exn_str e) ∈ trace w'.
Proof.
  intros [Hprompted Hroast]. prompt event v w Hprompted.
  erewrite bind_ok by (apply generate_roast_ok, Hroast).
  erewrite bind_ok by reflexivity.
  match goal with |- context [(cleanup E ?p ≫= _) ?w0] =>
    destruct (cleanup_returns E p w0) as (w1 & Hclean & _ & Hfs & Hwarn) end.
  erewrite bind_ok by exact Hclean.
  eexists _, _. split; [reflexivity|]. split.
  - rewrite Hfs. worlds.
    destruct (remove_error E _); [done|]. by rewrite delete_insert_eq.
  - intros e Hrm. apply (Hwarn e (l_blob v) Hrm).
    worlds. apply lookup_insert_eq.
Qed.

Lemma lambda_handler_200 event w r w' :
  lambda_handler E event w = (r, w') → statusCode r = 200 →
  ∃ v ms,
    completes E event v
    ∧ r = success_response (field (l_body v) "request_id") (l_roast v)
            (l_metadata v ms)
    ∧ EvEmbed embeddings (length (l_chunks v)) ∈ trace w'
    ∧ EvInvoke llm (l_messages v) ∈ trace w'.
Proof.
  intros H Hs. unfold lambda_handler in H.
  match type of H with context [match ?x with _ => _ end] =>
    destruct x as [[r0|e] w1] eqn:Hrun end.
  2: { destruct (exn_class e); injection H as <- <-; discriminate. }
  injection H as -> ->.
  apply bind_ok_inv in Hrun as (t0 & w0 & [-> ->]%now_inv & Hrun).
  unfold lambda_handler_try in Hrun.
  apply bind_ok_inv in Hrun as ([] & ? & [= <-] & Hrun).
  apply bind_ok_inv in Hrun
    as (body & ? & (s & Hbody & Hdec & ->)%json_loads_inv & Hrun).
  apply bind_ok_inv in Hrun as (s3_bucket & ? & (m & -> & -> & ->)%get_inv & Hrun).
  apply bind_ok_inv in Hrun as (s3_key & ? & (? & [= <-] & -> & ->)%get_inv & Hrun).
  apply bind_ok_inv in Hrun as (request_id & ? & (? & [= <-] & -> & ->)%get_inv & Hrun).
  fold (field m "s3_bucket") (field m "s3_key") (field m "request_id") in Hrun.
  destruct (py_all _) eqn:Hvalid; cbn [negb] in Hrun.
  2: { injection Hrun as <- <-. discriminate. }
  do 3 (apply bind_ok_inv in Hrun as ([] & ? & [= <-] & Hrun)).
  fold (scratch_path E m) in Hrun.
  apply bind_ok_inv in Hrun as (outcome & w2 & Hfetch%try_inv & Hrun).
  destruct outcome as [[]|e].
  2: { injection Hrun as <- <-. discriminate. }
  apply fetch_inv in Hfetch as (blob & Hdl & ->).
  apply bind_ok_inv in Hrun as ([] & ? & [= <-] & Hrun).
  apply bind_ok_inv in Hrun as (documents & w3 & Hload & Hrun).
  eapply load_pdf_inv in Hload as (Hload & ->).
  2: { worlds. apply lookup_insert_eq. }
  destruct documents as [|d ds] eqn:Hdocs.
  { injection Hrun as <- <-. discriminate. }
  rewrite <- Hdocs in *.
  apply bind_ok_inv in Hrun as ([] & ? & [= <-] & Hrun).
  apply bind_ok_inv in Hrun as (chunks & w4 & (Hsplit & ->)%chunk_text_inv & Hrun).
  apply bind_ok_inv in Hrun as ([] & ? & [= <-] & Hrun).
  apply bind_ok_inv in Hrun
    as (vs & w5 & (Hindex & ->)%initialize_vectorstore_inv & Hrun).
  apply bind_ok_inv in Hrun as (all & w6 & (rs & Hrs & -> & ->)%gather_inv & Hrun).
  apply bind_ok_inv in Hrun as ([] & ? & [= <-] & Hrun).
  apply bind_ok_inv in Hrun as (roast & w7 & (Hroast & ->)%generate_roast_inv & Hrun).
  apply bind_ok_inv in Hrun as (t & w8 & [-> ->]%now_inv & Hrun).
  apply bind_ok_inv in Hrun as ([] & w9 & Hclean & Hrun).
  injection Hrun as <- <-.
  match type of Hclean with cleanup _ ?p ?w0 = _ =>
    destruct (cleanup_returns E p w0) as (w10 & Hc & Hext & _) end.
  rewrite Hc in Hclean. injection Hclean as <-.
  change ([] ++ concat rs)%list with (concat rs) in *.
  assert (EvEmbed embeddings (length chunks) ∈ trace w10) as Hembed.
  { eapply elem_of_extends; [|exact Hext]. occurs. }
  assert (EvInvoke llm (messages (format_context (concat rs))
                                 (extract_full_text documents)) ∈ trace w10)
    as Hinvoke.
  { eapply elem_of_extends; [|exact Hext]. occurs. }
  clear Hext Hc.
  exists {| l_body := m; l_blob := blob; l_documents := documents;
            l_chunks := chunks; l_vectorstore := vs; l_results := rs;
            l_roast := roast |}.
  eexists. split; [|split; [reflexivity|]].
  { repeat constructor; cbn [l_body l_blob l_documents l_chunks l_vectorstore
                               l_results l_roast]; try done.
    - eauto.
    - by rewrite Hdocs. }
  split; [exact Hembed | exact Hinvoke].
Qed.
(** *** Failures and calls *)

Ltac tally :=
  repeat first
    [ rewrite calls_print | rewrite calls_traceback | rewrite calls_tick
    | rewrite calls_generated | rewrite calls_asked | rewrite calls_indexed
    | rewrite calls_chunked | rewrite calls_loaded | rewrite calls_stored
    | rewrite calls_started | rewrite calls_fetched ].

Lemma initialize_vectorstore_raise chunks request_id e w :
  from_documents E chunks embeddings = Raise e →
  initialize_vectorstore E chunks request_id w
  = (Raise e,
     emit (EvEmbed embeddings (length chunks))
       (emit (EvPrint ("[RAG] Initializing FAISS vector store for request "
                         ++ str E request_id)) w)).
Proof.
  intros H. unfold initialize_vectorstore, mbind, M_bind, call, print.
  by rewrite H.
Qed.

Lemma cleanup_calls path blob w :
  fs w !! path = Some blob →
  ∃ w', cleanup E path w = (Ok (), w')
        ∧ calls (trace w') = (calls (trace w) ++ [EvRemove path])%list.
Proof.
  intros Hfile.
  unfold cleanup, try_, mbind, M_bind, os_path_exists, os_remove, print, mret, M_ret.
  rewrite Hfile. simpl. rewrite Hfile.
  destruct (remove_error E path) as [e|]; simpl; eexists; (split; [done|]).
  - by rewrite calls_print, calls_emit.
  - rewrite calls_print. cbn [set_fs trace]. by rewrite calls_emit.
Qed.

Lemma download_fails event body e w :
  accepted E event body →
  download_file E (field body "s3_bucket") (field body "s3_key")
    (scratch_path E body) = Raise e →
  ∃ w', lambda_handler E event w
        = (error_response 500 ("Failed to download PDF from S3: " ++ exn_str e), w')
        ∧ fs w' = fs w
        ∧ calls (trace w')
          = (calls (trace w)
             ++ [EvDownload (field body "s3_bucket") (field body "s3_key")
                   (scratch_path E body)])%list.
Proof.
  intros [Hparsed Hvalid] Hdl.
  enter event body w Hparsed.
  rewrite Hvalid; cbn [negb].
  do 3 (erewrite bind_ok by reflexivity).
  fold (scratch_path E body).
  erewrite bind_ok by (apply try_ok, fetch_raise, Hdl).
  eexists. split; [reflexivity|]. split.
  - by worlds.
  - rewrite calls_emit. tally. done.
Qed.

Lemma indexing_raises event body blob documents chunks e w :
  downloaded E event body blob →
  pdf_load E blob = Ok documents → documents ≠ [] →
  split_documents E text_splitter documents = Ok chunks →
  from_documents E chunks embeddings = Raise e →
  exn_class e ≠ JSONDecodeError →
  ∃ w', lambda_handler E event w
        = (error_response 500 ("Internal server error: " ++ exn_str e), w')
        ∧ calls (trace w')
          = (calls (trace w)
             ++ [ EvDownload (field body "s3_bucket") (field body "s3_key")
                    (scratch_path E body);
                  EvLoadPdf (scratch_path E body);
                  EvSplit text_splitter (length documents);
                  EvEmbed embeddings (length chunks) ])%list.
Proof.
  intros Hdown Hload Hpages Hsplit Hindex Hclass.
  download event body blob w Hdown.
  erewrite bind_ok by (eapply load_pdf_ok; [worlds; apply lookup_insert_eq|exact Hload]).
  destruct documents as [|d ds] eqn:Hdocs; [done|]. rewrite <- Hdocs in *.
  erewrite bind_ok by reflexivity.
  erewrite bind_ok by (apply chunk_text_ok, Hsplit).
  erewrite bind_ok by reflexivity.
  erewrite bind_raise by (apply initialize_vectorstore_raise, Hindex).
  destruct (exn_class e); try done;
    (eexists; split; [reflexivity|]; tally; rewrite calls_emit; tally;
     by rewrite <- !app_assoc).
Qed.

Lemma unparsable_json event body blob e w :
  downloaded E event body blob → pdf_load E blob = Raise e →
  exn_class e = JSONDecodeError →
  (lambda_handler E event w).1 = error_response 400 "Invalid JSON in request body".
Proof.
  intros Hdown Hload Hclass. download event body blob w Hdown.
  erewrite bind_raise
    by (eapply load_pdf_raise; [worlds; apply lookup_insert_eq|exact Hload]).
  by rewrite Hclass.
Qed.

Lemma generation_raises_json event v e w :
  prompted E event v → invoke E llm (l_messages v) = Raise e →
  exn_class e = JSONDecodeError →
  (lambda_handler E event w).1 = error_response 400 "Invalid JSON in request body".
Proof.
  intros Hprompted Hroast Hclass. prompt event v w Hprompted.
  erewrite bind_raise by (apply generate_roast_raise, Hroast).
  by rewrite Hclass.
Qed.

Lemma succeeds_calls event v w :
  completes E event v →
  calls (trace (lambda_handler E event w).2)
  = (calls (trace w)
     ++ [ EvDownload (field (l_body v) "s3_bucket") (field (l_body v) "s3_key")
            (scratch_path E (l_body v));
          EvLoadPdf (scratch_path E (l_body v));
          EvSplit text_splitter (length (l_documents v));
          EvEmbed embeddings (length (l_chunks v)) ]
     ++ ((λ q, EvSearch q 3) <$> queries)
     ++ [ EvInvoke llm (l_messages v);
          EvRemove (scratch_path E (l_body v)) ])%list.
Proof.
  intros [Hprompted Hroast].
  assert (length (l_results v) = length queries) as Hlen.
  { destruct Hprompted as [_ _ _ _ _ Hsearch]. symmetry. by eapply Forall2_length. }
  prompt event v w Hprompted.
  erewrite bind_ok by (apply generate_roast_ok, Hroast).
  erewrite bind_ok by reflexivity.
  match goal with |- context [(cleanup E ?p ≫= _) ?w0] =>
    destruct (cleanup_calls p (l_blob v) w0) as (w1 & Hclean & Hcalls) end.
  { worlds. apply lookup_insert_eq. }
  erewrite bind_ok by exact Hclean.
  cbn [snd mret M_ret]. rewrite Hcalls. tally.
  rewrite calls_retrieved by exact Hlen. tally.
  by rewrite <- !app_assoc.
Qed.

Lemma lambda_handler_try_shape event t w r w' :
  lambda_handler_try E event t w = (Ok r, w') →
  (∃ m, r = error_response 400 m)
  ∨ (∃ m, r = error_response 500 m)
  ∨ (∃ request_id roast md, r = success_response request_id roast md).
Proof.
  intros H. unfold lambda_handler_try in H.
  apply bind_ok_inv in H as (? & ? & _ & H).
  apply bind_ok_inv in H as (body & ? & _ & H).
  apply bind_ok_inv in H as (s3_bucket & ? & _ & H).
  apply bind_ok_inv in H as (s3_key & ? & _ & H).
  apply bind_ok_inv in H as (request_id & ? & _ & H).
  destruct (negb (py_all [s3_bucket; s3_key; request_id])).
  { injection H as <- _. left. eauto. }
  do 3 (apply bind_ok_inv in H as (? & ? & _ & H)).
  apply bind_ok_inv in H as (outcome & ? & _ & H).
  destruct outcome as [[]|e].
  2: { injection H as <- _. right. left. eauto. }
  apply bind_ok_inv in H as (? & ? & _ & H).
  apply bind_ok_inv in H as (documents & ? & _ & H).
  destruct documents as [|d ds].
  { injection H as <- _. left. eauto. }
  do 9 (apply bind_ok_inv in H as (? & ? & _ & H)).
  injection H as <- _. right. right. eauto.
Qed.

Lemma lambda_handler_shape event w :
  (∃ m, (lambda_handler E event w).1 = error_response 400 m)
  ∨ (∃ m, (lambda_handler E event w).1 = error_response 500 m)
  ∨ (∃ request_id roast md,
       (lambda_handler E event w).1 = success_response request_id roast md).
Proof.
  unfold lambda_handler.
  match goal with |- context [match ?x with _ => _ end] =>
    destruct x as [[r|e] w1] eqn:Hrun end.
  - apply bind_ok_inv in Hrun as (t0 & w0 & _ & Hrun).
    by apply lambda_handler_try_shape in Hrun.
  - destruct (exn_class e); cbn [fst]; eauto.
Qed.
Lemma failure_after_download event body blob w :
  downloaded E event body blob →
  statusCode (lambda_handler E event w).1 ≠ 200 →
  fs (lambda_handler E event w).2 = <[scratch_path E body := blob]> (fs w).
Proof.
  intros Hdown. download event body blob w Hdown.
  match goal with |- context [match ?x with _ => _ end] =>
    assert ((∃ r, x.1 = Ok r ∧ statusCode r = 200)
            ∨ untouched (stored E body blob w) x.2) as Hrun
      by exact (settles_pipeline E untouched (field body "request_id")
                  (scratch_path E body) (time_time E (clock w))
                  (untouched_load (scratch_path E body))
                  (stored E body blob w));
    destruct x as [[r|e] w1]
  end; cbn [fst snd] in *.
  - intros Hstatus. destruct Hrun as [(r' & [= <-] & Hok) | [Hfs _]]; [done|].
    by rewrite Hfs.
  - intros _. destruct Hrun as [(r' & [=] & _) | [Hfs _]].
    destruct (exn_class e); cbn [snd fs emit]; by rewrite Hfs.
Qed.
End Runs.


(** ** Properties of the specification

    Each is checked on the handler; C1 to C10 are the numbers of the
    properties.

    *** Success metadata *)

Lemma metadata_field_success request_id roast (md : gmap string json) key :
  metadata_field (success_response request_id roast md) key = md !! key.
Proof. reflexivity. Qed.

Lemma l_metadata_chunks E (v : locals E) ms :
  l_metadata v ms !! "chunks_processed" = Some (JInt (Z.of_nat (length (l_chunks v)))).
Proof. reflexivity. Qed.

Lemma l_metadata_pages E (v : locals E) ms :
  l_metadata v ms !! "pages_processed" = Some (JInt (Z.of_nat (length (l_documents v)))).
Proof. reflexivity. Qed.

Lemma l_metadata_model E (v : locals E) ms :
  l_metadata v ms !! "model_used" = Some (JStr "claude-3-5-sonnet-v2").
Proof. reflexivity. Qed.

Lemma l_metadata_embedding E (v : locals E) ms :
  l_metadata v ms !! "embedding_model" = Some (JStr "titan-embed-text-v1").
Proof. reflexivity. Qed.

(** C4.  A response with status 200 comes from a run in which the loader
    returned the pages [l_documents v] and the splitter returned the
    chunks [l_chunks v] for those pages; its [metadata.chunks_processed]
    is the number of these chunks and its [metadata.pages_processed] the
    number of these pages. *)
Theorem metadata_counts E event w r w' :
  lambda_handler E event w = (r, w') → statusCode r = 200 →
  ∃ v : locals E,
    completes E event v
    ∧ pdf_load E (l_blob v) = Ok (l_documents v)
    ∧ split_documents E text_splitter (l_documents v) = Ok (l_chunks v)
    ∧ metadata_field r "chunks_processed"
      = Some (JInt (Z.of_nat (length (l_chunks v))))
    ∧ metadata_field r "pages_processed"
      = Some (JInt (Z.of_nat (length (l_documents v)))).
Proof.
  intros Hrun Hok.
  destruct (lambda_handler_200 E event w r w' Hrun Hok)
    as (v & ms & Hv & -> & _ & _).
  exists v. split; [exact Hv|].
  destruct Hv as [[_ Hload _ Hsplit _ _] _].
  split; [exact Hload|]. split; [exact Hsplit|].
  rewrite !metadata_field_success.
  split; [apply l_metadata_chunks | apply l_metadata_pages].
Qed.

(** The healthy deployment answers with status 200. *)
Lemma metadata_counts_witness :
  ∃ v : locals Scenario.healthy,
    completes Scenario.healthy Scenario.event v
    ∧ pdf_load Scenario.healthy (l_blob v) = Ok (l_documents v)
    ∧ split_documents Scenario.healthy text_splitter (l_documents v) = Ok (l_chunks v)
    ∧ metadata_field (lambda_handler Scenario.healthy Scenario.event Scenario.cold).1
        "chunks_processed" = Some (JInt (Z.of_nat (length (l_chunks v))))
    ∧ metadata_field (lambda_handler Scenario.healthy Scenario.event Scenario.cold).1
        "pages_processed" = Some (JInt (Z.of_nat (length (l_documents v)))).
Proof.
  eapply (metadata_counts Scenario.healthy Scenario.event Scenario.cold).
  - apply surjective_pairing.
  - vm_compute. reflexivity.
Defined.

(** C9.  In a response with status 200, [metadata.model_used] is
    ["claude-3-5-sonnet-v2"] and [metadata.embedding_model] is
    ["titan-embed-text-v1"], whereas the chat model was called under the
    identifier ["us.anthropic.claude-3-5-sonnet-20241022-v2:0"] and the
    embedding model under ["amazon.titan-embed-text-v1"]: the reported
    names are constants of the handler, not the identifiers in use. *)
Theorem reported_models E event w r w' :
  lambda_handler E event w = (r, w') → statusCode r = 200 →
  metadata_field r "model_used" = Some (JStr "claude-3-5-sonnet-v2")
  ∧ metadata_field r "embedding_model" = Some (JStr "titan-embed-text-v1")
  ∧ (∃ chat prompt,
       EvInvoke chat prompt ∈ trace w'
       ∧ model_id chat = "us.anthropic.claude-3-5-sonnet-20241022-v2:0")
  ∧ (∃ emb n,
       EvEmbed emb n ∈ trace w'
       ∧ embed_model_id emb = "amazon.titan-embed-text-v1").
Proof.
  intros Hrun Hok.
  destruct (lambda_handler_200 E event w r w' Hrun Hok)
    as (v & ms & _ & -> & Hembed & Hinvoke).
  rewrite !metadata_field_success.
  split; [apply l_metadata_model|]. split; [apply l_metadata_embedding|].
  split.
  - exists llm, (l_messages v). by split.
  - exists embeddings, (length (l_chunks v)). by split.
Qed.

(** The same run of the healthy deployment. *)
Lemma reported_models_witness :
  metadata_field (lambda_handler Scenario.healthy Scenario.event Scenario.cold).1
    "model_used" = Some (JStr "claude-3-5-sonnet-v2")
  ∧ metadata_field (lambda_handler Scenario.healthy Scenario.event Scenario.cold).1
      "embedding_model" = Some (JStr "titan-embed-text-v1")
  ∧ (∃ chat prompt,
       EvInvoke chat prompt
         ∈ trace (lambda_handler Scenario.healthy Scenario.event Scenario.cold).2
       ∧ model_id chat = "us.anthropic.claude-3-5-sonnet-20241022-v2:0")
  ∧ (∃ emb n,
       EvEmbed emb n
         ∈ trace (lambda_handler Scenario.healthy Scenario.event Scenario.cold).2
       ∧ embed_model_id emb = "amazon.titan-embed-text-v1").
Proof.
  apply (reported_models Scenario.healthy Scenario.event Scenario.cold).
  - apply surjective_pairing.
  - vm_compute. reflexivity.
Defined.

(** *** Retrieval *)

(** C5.  Whatever the queries [qs] and the result count [k], when the
    retrieval loop returns the combined list [all], the entries that go
    into the prompt context are the first five of the concatenated
    per-query answers, hence at most five, and the context text depends
    on no other entry. *)
Theorem context_at_most_five E (vs : VectorStore E) qs k w all w' :
  gather E vs qs k [] w = (Ok all, w') →
  ∃ rs, answers E vs k qs rs
        ∧ context_entries all = take 5 (concat rs)
        ∧ (length (context_entries all) ≤ 5)%nat
        ∧ format_context all = format_context (context_entries all).
Proof.
  intros Hrun.
  apply gather_inv in Hrun as (rs & Hrs & -> & _).
  exists rs. split; [exact Hrs|]. split; [reflexivity|].
  split; [apply length_context_entries | apply format_context_entries].
Qed.

(** Three queries with two results each: six entries, five used. *)
Lemma context_at_most_five_witness :
  ∃ rs, answers Scenario.healthy Scenario.pages 3 queries rs
        ∧ context_entries (Scenario.pages ++ Scenario.pages ++ Scenario.pages)%list
          = take 5 (concat rs)
        ∧ (length (context_entries
                     (Scenario.pages ++ Scenario.pages ++ Scenario.pages)%list) ≤ 5)%nat
        ∧ format_context (Scenario.pages ++ Scenario.pages ++ Scenario.pages)%list
          = format_context
              (context_entries (Scenario.pages ++ Scenario.pages ++ Scenario.pages)%list).
Proof.
  eapply (context_at_most_five Scenario.healthy Scenario.pages queries 3 Scenario.cold).
  vm_compute. reflexivity.
Defined.

(** C6.  The loop over the fixed queries asks the store once per query,
    in the order of the list, for [k] results (the handler passes 3); the
    combined list is the plain concatenation of the three answers in that
    order, nothing removed, and the context takes its first five entries.
    Where the store keeps its contract of at most [k] results per search,
    each answer has at most [k] entries. *)
Theorem retrieval_in_query_order E (vs : VectorStore E) k w all w' :
  gather E vs queries k [] w = (Ok all, w') →
  ∃ r1 r2 r3,
    similarity_search E vs "work experience and accomplishments" k = Ok r1
    ∧ similarity_search E vs "skills and qualifications" k = Ok r2
    ∧ similarity_search E vs "formatting and presentation issues" k = Ok r3
    ∧ all = (r1 ++ r2 ++ r3)%list
    ∧ trace w' = (trace w
                  ++ retrieval_events k "work experience and accomplishments" r1
                  ++ retrieval_events k "skills and qualifications" r2
                  ++ retrieval_events k "formatting and presentation issues" r3)%list
    ∧ context_entries all = take 5 (r1 ++ r2 ++ r3)%list
    ∧ ((∀ q r, similarity_search E vs q k = Ok r → (length r ≤ k)%nat) →
       (length r1 ≤ k ∧ length r2 ≤ k ∧ length r3 ≤ k)%nat).
Proof.
  intros Hrun.
  apply gather_inv in Hrun as (rs & Hrs & -> & ->).
  unfold answers, queries in Hrs.
  apply Forall2_cons_inv_l in Hrs as (r1 & rs1 & H1 & Hrs & ->).
  apply Forall2_cons_inv_l in Hrs as (r2 & rs2 & H2 & Hrs & ->).
  apply Forall2_cons_inv_l in Hrs as (r3 & rs3 & H3 & Hrs & ->).
  apply Forall2_nil_inv_l in Hrs as ->.
  exists r1, r2, r3.
  split; [exact H1|]. split; [exact H2|]. split; [exact H3|].
  assert (concat [r1; r2; r3] = (r1 ++ r2 ++ r3)%list) as Hcat.
  { simpl. by rewrite app_nil_r. }
  split; [exact Hcat|].
  split.
  { unfold retrieved, retrieval_trace, queries. cbn [trace zip_with concat app].
    by rewrite app_nil_r. }
  split.
  { change ([] ++ concat [r1; r2; r3])%list with (concat [r1; r2; r3]).
    by rewrite Hcat. }
  intros Hk. repeat split; eapply Hk; eassumption.
Qed.

(** The three searches of the healthy deployment. *)
Lemma retrieval_in_query_order_witness :
  ∃ r1 r2 r3,
    similarity_search Scenario.healthy Scenario.pages
      "work experience and accomplishments" 3 = Ok r1
    ∧ similarity_search Scenario.healthy Scenario.pages
        "skills and qualifications" 3 = Ok r2
    ∧ similarity_search Scenario.healthy Scenario.pages
        "formatting and presentation issues" 3 = Ok r3
    ∧ (Scenario.pages ++ Scenario.pages ++ Scenario.pages)%list = (r1 ++ r2 ++ r3)%list
    ∧ trace (gather Scenario.healthy Scenario.pages queries 3 [] Scenario.cold).2
      = (trace Scenario.cold
         ++ retrieval_events 3 "work experience and accomplishments" r1
         ++ retrieval_events 3 "skills and qualifications" r2
         ++ retrieval_events 3 "formatting and presentation issues" r3)%list
    ∧ context_entries (Scenario.pages ++ Scenario.pages ++ Scenario.pages)%list
      = take 5 (r1 ++ r2 ++ r3)%list
    ∧ ((∀ q r, similarity_search Scenario.healthy Scenario.pages q 3 = Ok r →
               (length r ≤ 3)%nat) →
       (length r1 ≤ 3 ∧ length r2 ≤ 3 ∧ length r3 ≤ 3)%nat).
Proof.
  eapply (retrieval_in_query_order Scenario.healthy Scenario.pages 3 Scenario.cold).
  vm_compute. reflexivity.
Defined.

(** The three searches of the deployment return the same two chunks, and
    the combined list keeps all six entries. *)
Lemma duplicates_are_kept :
  (gather Scenario.healthy Scenario.pages queries 3 [] Scenario.cold).1
  = Ok (Scenario.pages ++ Scenario.pages ++ Scenario.pages)%list.
Proof. vm_compute. reflexivity. Qed.

(** *** Validation *)





(** C10.  When the event has no [body] key, the handler decodes the
    default text ["{}"], which [json.loads] turns into the empty object,
    and returns the 400 response for missing fields; nothing is raised. *)
Theorem absent_body_rejected E (event : gmap string json) w :
  event !! "body" = None →
  json_decode E "{}" = Ok (JObject ∅) →
  lambda_handler E event w
  = (error_response 400 "Missing required fields: s3_bucket, s3_key, request_id",
     emit (EvPrint "[HANDLER] Parsing request body...") (tick w)).
Proof.
  intros Habsent Hdec.
  apply (rejected E event ∅ w).
  - exists "{}". unfold body_arg. rewrite Habsent. by split.
  - reflexivity.
Qed.

(** The empty event. *)
Lemma absent_body_rejected_witness :
  lambda_handler Scenario.healthy ∅ Scenario.cold
  = (error_response 400 "Missing required fields: s3_bucket, s3_key, request_id",
     emit (EvPrint "[HANDLER] Parsing request body...") (tick Scenario.cold)).
Proof.
  apply (absent_body_rejected Scenario.healthy ∅ Scenario.cold).
  - reflexivity.
  - vm_compute. reflexivity.
Defined.

(** A body of [null], as API Gateway sends for a request without one, is
    not an absent body: [json.loads] raises a [TypeError]. *)
Lemma null_body_is_500 E (event : gmap string json) w :
  event !! "body" = Some JNull →
  (lambda_handler E event w).1
  = error_response 500
      "Internal server error: the JSON object must be str, bytes or bytearray, not NoneType".
Proof.
  intros Hnull. unfold lambda_handler.
  erewrite (bind_ok (now E)) by reflexivity.
  unfold lambda_handler_try.
  erewrite bind_ok by reflexivity.
  rewrite Hnull. reflexivity.
Qed.

(** X3.  A body that decodes to something other than an object (an array,
    a number, a string, [null]) has no [get]: the [AttributeError] is
    reported by the catch-all as status 500, not as a 400. *)
Lemma non_object_body_is_500 E (event : gmap string json) s v w :
  body_arg event = JStr s → json_decode E s = Ok v →
  (∀ m, v ≠ JObject m) →
  (lambda_handler E event w).1
  = error_response 500
      ("Internal server error: " ++ sq ++ type_name v ++ sq
         ++ " object has no attribute " ++ sq ++ "get" ++ sq).
Proof.
  intros Htext Hdec Hv. unfold lambda_handler.
  erewrite (bind_ok (now E)) by reflexivity.
  unfold lambda_handler_try.
  erewrite bind_ok by reflexivity.
  fold (body_arg event). rewrite Htext.
  erewrite bind_ok by (cbn [json_loads]; unfold lift; rewrite Hdec; reflexivity).
  destruct v; try reflexivity. by destruct (Hv m).
Qed.

Ltac scenario_downloaded :=
  split;
  [ split;
    [ exists Scenario.request_text; split; vm_compute; reflexivity
    | vm_compute; reflexivity ]
  | vm_compute; reflexivity ].


(** *** Failures of the pipeline *)

(** The path the handler has for a document it cannot use: zero pages
    give status 400. *)
Lemma zero_pages_is_400 E event (body : gmap string json) blob w :
  downloaded E event body blob → pdf_load E blob = Ok [] →
  (lambda_handler E event w).1
  = error_response 400 "PDF appears to be empty or unreadable".
Proof.
  intros Hdown Hload.
  destruct (unreadable E event body blob w Hdown Hload) as (w' & -> & _).
  reflexivity.
Qed.

(** C2.  After a successful download, when the loader raises because it
    cannot parse the file, the exception goes to the [except] clauses of
    the handler: the response is the 500 of the catch-all, or, for an
    exception of class [JSONDecodeError], the 400 for invalid JSON in the
    request body.  It is never the 400 "PDF appears to be empty or
    unreadable" that a document of zero pages gets. *)
Theorem unparsable_document_outcome E event (body : gmap string json) blob e w :
  downloaded E event body blob → pdf_load E blob = Raise e →
  (lambda_handler E event w).1
  = match exn_class e with
    | JSONDecodeError => error_response 400 "Invalid JSON in request body"
    | _ => error_response 500 ("Internal server error: " ++ exn_str e)
    end
  ∧ (lambda_handler E event w).1
    ≠ error_response 400 "PDF appears to be empty or unreadable".
Proof.
  intros Hdown Hload.
  assert ((lambda_handler E event w).1
          = match exn_class e with
            | JSONDecodeError => error_response 400 "Invalid JSON in request body"
            | _ => error_response 500 ("Internal server error: " ++ exn_str e)
            end) as Hrun.
  { destruct (exn_class e) eqn:Hclass;
      first [ exact (unparsable_json E event body blob e w Hdown Hload Hclass)
            | destruct (unparsable E event body blob e w Hdown Hload)
                as (w' & -> & _); [congruence | reflexivity] ]. }
  split; [exact Hrun|]. rewrite Hrun.
  destruct (exn_class e); intros Heq;
    first [ apply (f_equal statusCode) in Heq; discriminate
          | apply (f_equal (λ r, body_field r "error")) in Heq;
            vm_compute in Heq; discriminate ].
Qed.

(** The deployment whose file is not a PDF: the loader raises. *)
Lemma unparsable_document_outcome_witness :
  (lambda_handler Scenario.corrupt Scenario.event Scenario.cold).1
  = match exn_class Scenario.corrupt_error with
    | JSONDecodeError => error_response 400 "Invalid JSON in request body"
    | _ => error_response 500
             ("Internal server error: " ++ exn_str Scenario.corrupt_error)
    end
  ∧ (lambda_handler Scenario.corrupt Scenario.event Scenario.cold).1
    ≠ error_response 400 "PDF appears to be empty or unreadable".
Proof.
  apply (unparsable_document_outcome Scenario.corrupt Scenario.event
           Scenario.request Scenario.blob Scenario.corrupt_error Scenario.cold).
  - scenario_downloaded.
  - reflexivity.
Defined.




(** *** The scratch file *)

(** C1.  On the failure paths after a successful download the scratch
    file stays: with a PDF of no page (status 400), with a PDF the loader
    cannot parse (status 500) and with a failing chat model (status 500),
    the file is still in [/tmp] when the response is returned, and
    [os.remove] was never called. *)
Theorem scratch_file_left_behind :
  (statusCode (lambda_handler Scenario.blank Scenario.event Scenario.cold).1 = 400
   ∧ fs (lambda_handler Scenario.blank Scenario.event Scenario.cold).2
       !! "/tmp/req-123.pdf" = Some Scenario.blob
   ∧ removals (trace (lambda_handler Scenario.blank Scenario.event Scenario.cold).2) = [])
  ∧ (statusCode (lambda_handler Scenario.corrupt Scenario.event Scenario.cold).1 = 500
     ∧ fs (lambda_handler Scenario.corrupt Scenario.event Scenario.cold).2
         !! "/tmp/req-123.pdf" = Some Scenario.blob
     ∧ removals (trace (lambda_handler Scenario.corrupt Scenario.event Scenario.cold).2)
       = [])
  ∧ (statusCode (lambda_handler Scenario.throttled Scenario.event Scenario.cold).1 = 500
     ∧ fs (lambda_handler Scenario.throttled Scenario.event Scenario.cold).2
         !! "/tmp/req-123.pdf" = Some Scenario.blob
     ∧ removals (trace (lambda_handler Scenario.throttled Scenario.event Scenario.cold).2)
       = []).
Proof.
  repeat split; vm_compute; reflexivity.
Qed.

(** On the success path the file is removed. *)
Lemma scratch_file_removed_on_success :
  statusCode (lambda_handler Scenario.healthy Scenario.event Scenario.cold).1 = 200
  ∧ fs (lambda_handler Scenario.healthy Scenario.event Scenario.cold).2
      !! "/tmp/req-123.pdf" = None
  ∧ removals (trace (lambda_handler Scenario.healthy Scenario.event Scenario.cold).2)
    = ["/tmp/req-123.pdf"].
Proof.
  repeat split; vm_compute; reflexivity.
Qed.

(** X9.  When [os.remove] fails on the success path, the failure is
    logged as a warning, the scratch file stays with the downloaded
    document in it, and the response is still the success with status
    200. *)
Lemma failed_removal_is_logged E event (v : locals E) e w :
  completes E event v →
  remove_error E (scratch_path E (l_body v)) = Some e →
  statusCode (lambda_handler E event w).1 = 200
  ∧ fs (lambda_handler E event w).2 !! scratch_path E (l_body v) = Some (l_blob v)
  ∧ EvPrint ("[HANDLER] Warning: Cleanup failed: " ++ exn_str e)
    ∈ trace (lambda_handler E event w).2.
Proof.
  intros Hdone Hrm.
  destruct (succeeds E event v w Hdone) as (ms & w' & -> & Hfs & Hwarn).
  split; [reflexivity|]. cbn [snd]. split; [|by apply Hwarn].
  rewrite Hfs, Hrm. apply lookup_insert_eq.
Qed.

(** *** Chunking *)

(** The chunker returns what the splitter returns for the pages, with the
    parameters of [text_splitter]; the handler does not look at the
    number of chunks before indexing them. *)
Lemma chunk_text_is_split_documents E documents w :
  (chunk_text E documents w).1 = split_documents E text_splitter documents.
Proof.
  unfold chunk_text, mbind, M_bind, call, print, mret, M_ret.
  by destruct (split_documents E text_splitter documents).
Qed.

(** ** Further properties of the code

    The scratch storage is keyed by the path as the handler writes it,
    and the elapsed time is computed on exact readings of the clock.  The
    properties below speak of the path of the request itself and of the
    calls in the trace, not of other names a file may have, and not of
    the value of [processing_time_ms]. *)

(** *** Strings *)

Lemma string_app_assoc (a b c : string) : (a ++ b) ++ c = a ++ b ++ c.
Proof.
  induction a as [|x a IH]; [done|].
  change (String x ((a ++ b) ++ c) = String x (a ++ b ++ c)). by rewrite IH.
Qed.

Lemma join_app sep (l1 l2 : list string) :
  l1 ≠ [] → l2 ≠ [] →
  join sep (l1 ++ l2) = join sep l1 ++ sep ++ join sep l2.
Proof.
  intros H1 H2. induction l1 as [|p l1 IH]; [done|].
  destruct l1 as [|p' l1].
  - simpl. by destruct l2.
  - change (join sep ((p :: p' :: l1) ++ l2))
      with (p ++ sep ++ join sep ((p' :: l1) ++ l2)).
    rewrite IH by done.
    change (join sep (p :: p' :: l1)) with (p ++ sep ++ join sep (p' :: l1)).
    by rewrite !string_app_assoc.
Qed.

Lemma substring_app n (s s' : string) :
  (n ≤ String.length s)%nat → substring 0 n (s ++ s') = substring 0 n s.
Proof.
  revert n. induction s as [|x s IH]; intros n Hn; simpl in Hn.
  - assert (n = 0%nat) as -> by lia. by destruct s'.
  - destruct n as [|n]; [done|].
    change (String x (substring 0 n (s ++ s')) = String x (substring 0 n s)).
    by rewrite IH by lia.
Qed.

Lemma length_filler n : String.length (filler n) = n.
Proof. induction n; simpl; congruence. Qed.

(** *** The request body *)

(** X1.  When [json.loads] raises a [JSONDecodeError] on the body, the
    response is status 400 with the message "Invalid JSON in request
    body"; the handler has printed its first line and read the clock,
    and nothing else has happened. *)
Theorem invalid_json_is_400 E event s e w :
  body_arg event = JStr s → json_decode E s = Raise e →
  exn_class e = JSONDecodeError →
  lambda_handler E event w
  = (error_response 400 "Invalid JSON in request body",
     emit (EvPrint "[HANDLER] Parsing request body...") (tick w)).
Proof.
  intros Hs Hdec Hclass. unfold lambda_handler.
  erewrite (bind_ok (now E)) by reflexivity.
  unfold lambda_handler_try.
  erewrite bind_ok by reflexivity.
  fold (body_arg event). rewrite Hs.
  erewrite bind_raise by (cbn [json_loads]; unfold lift; rewrite Hdec; reflexivity).
  by rewrite Hclass.
Qed.

Lemma invalid_json_is_400_witness :
  lambda_handler Faults.sound Faults.garbage_event Scenario.cold
  = (error_response 400 "Invalid JSON in request body",
     emit (EvPrint "[HANDLER] Parsing request body...") (tick Scenario.cold)).
Proof.
  apply (invalid_json_is_400 Faults.sound Faults.garbage_event "not json"
           Faults.garbled Scenario.cold).
  - reflexivity.
  - vm_compute. reflexivity.
  - reflexivity.
Defined.

(** X2.  A [body] that is present but is not a string ([null], a number,
    an object) is not decoded: [json.loads] raises a [TypeError] and the
    response is the 500 of the catch-all, not a 400. *)
Theorem non_string_body_is_500 E (event : gmap string json) v w :
  event !! "body" = Some v → (∀ s, v ≠ JStr s) →
  (lambda_handler E event w).1
  = error_response 500
      ("Internal server error: the JSON object must be str, bytes or bytearray, not "
         ++ type_name v).
Proof.
  intros Hbody Hv. unfold lambda_handler.
  erewrite (bind_ok (now E)) by reflexivity.
  unfold lambda_handler_try.
  erewrite bind_ok by reflexivity.
  rewrite Hbody. cbn [default from_option].
  destruct v; try reflexivity. by destruct (Hv s).
Qed.

Lemma non_string_body_is_500_witness :
  (lambda_handler Faults.sound Faults.null_event Scenario.cold).1
  = error_response 500
      ("Internal server error: the JSON object must be str, bytes or bytearray, not "
         ++ type_name JNull).
Proof.
  apply (non_string_body_is_500 Faults.sound Faults.null_event JNull Scenario.cold).
  - reflexivity.
  - intros s. discriminate.
Defined.

(** The body is the text of an array. *)
Lemma non_object_body_is_500_witness :
  (lambda_handler Faults.sound Faults.array_event Scenario.cold).1
  = error_response 500
      ("Internal server error: " ++ sq ++ type_name (JList []) ++ sq
         ++ " object has no attribute " ++ sq ++ "get" ++ sq).
Proof.
  apply (non_object_body_is_500 Faults.sound Faults.array_event "[]" (JList [])
           Scenario.cold).
  - reflexivity.
  - vm_compute. reflexivity.
  - intros m. discriminate.
Defined.

(** *** Failures of the pipeline *)

Ltac faults_accepted :=
  split;
  [ exists Scenario.request_text; split; vm_compute; reflexivity
  | vm_compute; reflexivity ].

Ltac faults_downloaded := split; [ faults_accepted | vm_compute; reflexivity ].

Ltac faults_prompted :=
  split;
  [ faults_downloaded
  | reflexivity
  | discriminate
  | reflexivity
  | reflexivity
  | repeat constructor ].

(** X4.  When the download raises, whatever the class of the exception,
    the response is status 500 with "Failed to download PDF from S3: "
    and the text of the exception.  The download was the only call made,
    with the bucket and key of the body and the file [/tmp/<request_id>.pdf],
    and the scratch storage is unchanged. *)
Theorem download_failure_is_500 E event (body : gmap string json) e w :
  accepted E event body →
  download_file E (field body "s3_bucket") (field body "s3_key")
    (scratch_path E body) = Raise e →
  (lambda_handler E event w).1
  = error_response 500 ("Failed to download PDF from S3: " ++ exn_str e)
  ∧ fs (lambda_handler E event w).2 = fs w
  ∧ calls (trace (lambda_handler E event w).2)
    = (calls (trace w)
       ++ [EvDownload (field body "s3_bucket") (field body "s3_key")
             (scratch_path E body)])%list.
Proof.
  intros Hacc Hdl.
  destruct (download_fails E event body e w Hacc Hdl) as (w' & -> & Hfs & Hcalls).
  by repeat split.
Qed.

Lemma download_failure_is_500_witness :
  (lambda_handler Faults.missing_object Scenario.event Scenario.cold).1
  = error_response 500
      ("Failed to download PDF from S3: " ++ exn_str Faults.not_found)
  ∧ fs (lambda_handler Faults.missing_object Scenario.event Scenario.cold).2
    = fs Scenario.cold
  ∧ calls (trace (lambda_handler Faults.missing_object Scenario.event Scenario.cold).2)
    = (calls (trace Scenario.cold)
       ++ [EvDownload (field Scenario.request "s3_bucket")
             (field Scenario.request "s3_key")
             (scratch_path Faults.missing_object Scenario.request)])%list.
Proof.
  apply (download_failure_is_500 Faults.missing_object Scenario.event
           Scenario.request Faults.not_found Scenario.cold).
  - faults_accepted.
  - reflexivity.
Defined.

(** X5.  The handler hands the chunks to the indexer without looking at
    them, empty or not.  When [FAISS.from_documents] raises, the response
    is status 500, and the calls made are the
    download, the load, the split and the embedding: no search, no call
    of the chat model, no removal of the scratch file. *)
Theorem indexing_failure_is_500 E event (body : gmap string json) blob
    documents chunks e w :
  downloaded E event body blob →
  pdf_load E blob = Ok documents → documents ≠ [] →
  split_documents E text_splitter documents = Ok chunks →
  from_documents E chunks embeddings = Raise e →
  exn_class e ≠ JSONDecodeError →
  (lambda_handler E event w).1
  = error_response 500 ("Internal server error: " ++ exn_str e)
  ∧ calls (trace (lambda_handler E event w).2)
    = (calls (trace w)
       ++ [ EvDownload (field body "s3_bucket") (field body "s3_key")
              (scratch_path E body);
            EvLoadPdf (scratch_path E body);
            EvSplit text_splitter (length documents);
            EvEmbed embeddings (length chunks) ])%list.
Proof.
  intros Hdown Hload Hpages Hsplit Hindex Hclass.
  destruct (indexing_raises E event body blob documents chunks e w
              Hdown Hload Hpages Hsplit Hindex Hclass) as (w' & -> & Hcalls).
  by split.
Qed.

Lemma indexing_failure_is_500_witness :
  (lambda_handler Faults.no_chunks Scenario.event Scenario.cold).1
  = error_response 500 ("Internal server error: " ++ exn_str Faults.empty_index)
  ∧ calls (trace (lambda_handler Faults.no_chunks Scenario.event Scenario.cold).2)
    = (calls (trace Scenario.cold)
       ++ [ EvDownload (field Scenario.request "s3_bucket")
              (field Scenario.request "s3_key")
              (scratch_path Faults.no_chunks Scenario.request);
            EvLoadPdf (scratch_path Faults.no_chunks Scenario.request);
            EvSplit text_splitter (length Scenario.pages);
            EvEmbed embeddings (length (@nil Document)) ])%list.
Proof.
  apply (indexing_failure_is_500 Faults.no_chunks Scenario.event Scenario.request
           Scenario.blob Scenario.pages [] Faults.empty_index Scenario.cold).
  - faults_downloaded.
  - reflexivity.
  - discriminate.
  - reflexivity.
  - reflexivity.
  - discriminate.
Defined.

Lemma gather_raise E (vs : VectorStore E) k qs1 : ∀ rs1 q qs2 e acc w,
  answers E vs k qs1 rs1 →
  similarity_search E vs q k = Raise e →
  gather E vs (qs1 ++ q :: qs2) k acc w
  = (Raise e, emit (EvSearch q k) (retrieved k qs1 rs1 w)).
Proof.
  induction qs1 as [|q1 qs1 IH]; intros rs1 q qs2 e acc w Hrs Hq.
  - apply Forall2_nil_inv_l in Hrs as ->. cbn [app gather].
    erewrite bind_raise by (apply retrieve_context_raise, Hq).
    unfold retrieved, retrieval_trace. cbn [zip_with concat].
    rewrite app_nil_r. by destruct w.
  - apply Forall2_cons_inv_l in Hrs as (r1 & rs1' & Hr1 & Hrs' & ->).
    cbn [app gather].
    erewrite bind_ok by (apply retrieve_context_ok, Hr1).
    rewrite (IH rs1' q qs2 e _ _ Hrs' Hq).
    unfold retrieved, retrieval_trace, emit. cbn [zip_with concat fs trace clock].
    by rewrite app_nil_r, <- !app_assoc.
Qed.

(** X6.  The retrieval loop stops at the first search that raises: the
    searches before it have been made, in order, the failing one has been
    called once, and the queries after it are never searched; what the
    earlier searches returned is lost with the exception. *)
Theorem retrieval_stops_at_first_failure E (vs : VectorStore E) k qs1 rs1 q qs2 e w :
  answers E vs k qs1 rs1 →
  similarity_search E vs q k = Raise e →
  gather E vs (qs1 ++ q :: qs2) k [] w
  = (Raise e, emit (EvSearch q k) (retrieved k qs1 rs1 w))
  ∧ calls (trace (gather E vs (qs1 ++ q :: qs2) k [] w).2)
    = (calls (trace w) ++ ((λ q', EvSearch q' k) <$> qs1) ++ [EvSearch q k])%list.
Proof.
  intros Hrs Hq. rewrite (gather_raise E vs k qs1 rs1 q qs2 e [] w Hrs Hq).
  split; [reflexivity|]. cbn [snd].
  rewrite calls_emit, calls_retrieved by (symmetry; by eapply Forall2_length).
  by rewrite <- app_assoc.
Qed.

Lemma retrieval_stops_at_first_failure_witness :
  gather Faults.flaky Scenario.pages
    (["work experience and accomplishments"]
       ++ "skills and qualifications" :: ["formatting and presentation issues"])
    3 [] Scenario.cold
  = (Raise Faults.timed_out,
     emit (EvSearch "skills and qualifications" 3)
       (retrieved 3 ["work experience and accomplishments"] [Scenario.pages]
          Scenario.cold))
  ∧ calls (trace (gather Faults.flaky Scenario.pages
                    (["work experience and accomplishments"]
                       ++ "skills and qualifications"
                          :: ["formatting and presentation issues"])
                    3 [] Scenario.cold).2)
    = (calls (trace Scenario.cold)
       ++ ((λ q', EvSearch q' 3) <$> ["work experience and accomplishments"])
       ++ [EvSearch "skills and qualifications" 3])%list.
Proof.
  apply (retrieval_stops_at_first_failure Faults.flaky Scenario.pages 3
           ["work experience and accomplishments"] [Scenario.pages]
           "skills and qualifications" ["formatting and presentation issues"]
           Faults.timed_out Scenario.cold).
  - repeat constructor.
  - reflexivity.
Defined.

(** X7.  The handler tells an invalid request body from other failures
    by the class of the exception alone, wherever it was raised: when the
    chat model raises a [JSONDecodeError], after the request was accepted
    and the document downloaded, loaded, chunked, indexed and searched,
    the response is status 400 with "Invalid JSON in request body". *)
Theorem decode_error_of_the_model_is_400 E event (v : locals E) e w :
  prompted E event v → invoke E llm (l_messages v) = Raise e →
  exn_class e = JSONDecodeError →
  (lambda_handler E event w).1 = error_response 400 "Invalid JSON in request body".
Proof.
  intros Hprompted Hraise Hclass.
  exact (generation_raises_json E event v e w Hprompted Hraise Hclass).
Qed.

Lemma decode_error_of_the_model_is_400_witness :
  (lambda_handler Faults.undecodable Scenario.event Scenario.cold).1
  = error_response 400 "Invalid JSON in request body".
Proof.
  apply (decode_error_of_the_model_is_400 Faults.undecodable Scenario.event
           (scenario_locals Faults.undecodable Scenario.pages "")
           Faults.garbled Scenario.cold).
  - faults_prompted.
  - reflexivity.
  - reflexivity.
Defined.

(** *** The scratch file after a success *)

(** X8.  A response with status 200 comes from a call that called
    [os.remove] once, on [/tmp/<request_id>.pdf], after everything else;
    unless that removal failed, no file of that name exists afterwards,
    also when one existed before the call. *)
Theorem scratch_file_after_success E event w r w' :
  lambda_handler E event w = (r, w') → statusCode r = 200 →
  ∃ v : locals E,
    completes E event v
    ∧ removals (trace w')
      = (removals (trace w) ++ [scratch_path E (l_body v)])%list
    ∧ (remove_error E (scratch_path E (l_body v)) = None →
       fs w' !! scratch_path E (l_body v) = None).
Proof.
  intros Hrun Hok.
  destruct (lambda_handler_200 E event w r w' Hrun Hok) as (v & ms & Hv & _).
  exists v. split; [exact Hv|]. split.
  - pose proof (succeeds_calls E event v w Hv) as Hcalls.
    rewrite Hrun in Hcalls. cbn [snd] in Hcalls.
    apply (f_equal removals) in Hcalls.
    rewrite removals_calls, !removals_app, removals_calls in Hcalls.
    rewrite Hcalls. reflexivity.
  - intros Hrm.
    destruct (succeeds E event v w Hv) as (ms' & w'' & Hrun' & Hfs & _).
    rewrite Hrun in Hrun'. injection Hrun' as _ <-.
    rewrite Hfs, Hrm. apply lookup_delete_eq.
Qed.

Lemma scratch_file_after_success_witness :
  ∃ v : locals Scenario.healthy,
    completes Scenario.healthy Scenario.event v
    ∧ removals (trace (lambda_handler Scenario.healthy Scenario.event
                         Scenario.cold).2)
      = (removals (trace Scenario.cold)
         ++ [scratch_path Scenario.healthy (l_body v)])%list
    ∧ (remove_error Scenario.healthy (scratch_path Scenario.healthy (l_body v))
       = None →
       fs (lambda_handler Scenario.healthy Scenario.event Scenario.cold).2
         !! scratch_path Scenario.healthy (l_body v) = None).
Proof.
  eapply (scratch_file_after_success Scenario.healthy Scenario.event Scenario.cold).
  - apply surjective_pairing.
  - vm_compute. reflexivity.
Defined.

(** [os.remove] is refused. *)
Lemma failed_removal_is_logged_witness :
  statusCode (lambda_handler Faults.locked Scenario.event Scenario.cold).1 = 200
  ∧ fs (lambda_handler Faults.locked Scenario.event Scenario.cold).2
      !! scratch_path Faults.locked
           (l_body (scenario_locals Faults.locked Scenario.pages Scenario.roast))
    = Some (l_blob (scenario_locals Faults.locked Scenario.pages Scenario.roast))
  ∧ EvPrint ("[HANDLER] Warning: Cleanup failed: " ++ exn_str Faults.denied)
    ∈ trace (lambda_handler Faults.locked Scenario.event Scenario.cold).2.
Proof.
  apply (failed_removal_is_logged Faults.locked Scenario.event
           (scenario_locals Faults.locked Scenario.pages Scenario.roast)
           Faults.denied Scenario.cold).
  - split; [faults_prompted | reflexivity].
  - reflexivity.
Defined.

(** *** The calls of a request *)

(** X10.  A request that succeeds makes exactly these calls, in this
    order, each once: the download, the load of the file, the split of
    the pages, the embedding of the chunks, the three searches with
    [k = 3], the call of the chat model with the system prompt and the
    user prompt built from the retrieved context and the full text, and
    the removal of the scratch file.  Nothing is retried. *)
Theorem calls_of_a_successful_request E event (v : locals E) w :
  completes E event v →
  calls (trace (lambda_handler E event w).2)
  = (calls (trace w)
     ++ [ EvDownload (field (l_body v) "s3_bucket") (field (l_body v) "s3_key")
            (scratch_path E (l_body v));
          EvLoadPdf (scratch_path E (l_body v));
          EvSplit text_splitter (length (l_documents v));
          EvEmbed embeddings (length (l_chunks v));
          EvSearch "work experience and accomplishments" 3;
          EvSearch "skills and qualifications" 3;
          EvSearch "formatting and presentation issues" 3;
          EvInvoke llm
            [ {| role := "system"; content := system_prompt |};
              {| role := "user";
                 content := user_prompt (format_context (concat (l_results v)))
                              (extract_full_text (l_documents v)) |} ];
          EvRemove (scratch_path E (l_body v)) ])%list.
Proof.
  intros Hdone. rewrite (succeeds_calls E event v w Hdone). reflexivity.
Qed.

Lemma calls_of_a_successful_request_witness :
  calls (trace (lambda_handler Faults.sound Scenario.event Scenario.cold).2)
  = (calls (trace Scenario.cold)
     ++ [ EvDownload (JStr "bucket1") (JStr "resumes/a.pdf") "/tmp/req-123.pdf";
          EvLoadPdf "/tmp/req-123.pdf";
          EvSplit text_splitter 2;
          EvEmbed embeddings 2;
          EvSearch "work experience and accomplishments" 3;
          EvSearch "skills and qualifications" 3;
          EvSearch "formatting and presentation issues" 3;
          EvInvoke llm
            [ {| role := "system"; content := system_prompt |};
              {| role := "user";
                 content :=
                   user_prompt
                     (format_context
                        (concat [Scenario.pages; Scenario.pages; Scenario.pages]))
                     (extract_full_text Scenario.pages) |} ];
          EvRemove "/tmp/req-123.pdf" ])%list.
Proof.
  apply (calls_of_a_successful_request Faults.sound Scenario.event
           (scenario_locals Faults.sound Scenario.pages Scenario.roast) Scenario.cold).
  split; [faults_prompted | reflexivity].
Defined.

(** *** The response *)

(** X11.  A response with status 200 carries the request id as the
    request body gave it (a number stays a number; only the scratch
    path and the log use its text) and the content the chat model
    returned, unchanged, and has no [error] field. *)
Theorem success_echoes_request E event w r w' :
  lambda_handler E event w = (r, w') → statusCode r = 200 →
  ∃ v : locals E,
    completes E event v
    ∧ body_field r "request_id" = Some (field (l_body v) "request_id")
    ∧ body_field r "roast" = Some (JStr (l_roast v))
    ∧ body_field r "error" = None.
Proof.
  intros Hrun Hok.
  destruct (lambda_handler_200 E event w r w' Hrun Hok) as (v & ms & Hv & -> & _).
  exists v. split; [exact Hv|]. by vm_compute.
Qed.

Lemma success_echoes_request_witness :
  ∃ v : locals Scenario.healthy,
    completes Scenario.healthy Scenario.event v
    ∧ body_field (lambda_handler Scenario.healthy Scenario.event Scenario.cold).1
        "request_id" = Some (field (l_body v) "request_id")
    ∧ body_field (lambda_handler Scenario.healthy Scenario.event Scenario.cold).1
        "roast" = Some (JStr (l_roast v))
    ∧ body_field (lambda_handler Scenario.healthy Scenario.event Scenario.cold).1
        "error" = None.
Proof.
  eapply (success_echoes_request Scenario.healthy Scenario.event Scenario.cold).
  - apply surjective_pairing.
  - vm_compute. reflexivity.
Defined.

(** X12.  Every response of the handler, success or error, whatever the
    event and whatever the libraries do, has the same four headers:
    the JSON content type and the three CORS headers. *)
Theorem headers_always_cors E event w :
  headers (lambda_handler E event w).1 = cors_headers.
Proof.
  destruct (lambda_handler_shape E event w)
    as [[m ->] | [[m ->] | (request_id & roast & md & ->)]]; reflexivity.
Qed.

(** X13.  The handler answers every event with one of two shapes: status
    200 with a body of exactly [request_id], [roast] and [metadata], or
    status 400 or 500 with a body of exactly one field, [error], holding
    a string.  No other status is used and no exception escapes. *)
Theorem response_is_success_or_error E event w :
  (statusCode (lambda_handler E event w).1 = 200
   ∧ ∃ request_id roast md,
       body (lambda_handler E event w).1
       = JObject {[ "request_id" := request_id; "roast" := JStr roast;
                    "metadata" := JObject md ]})
  ∨ ((statusCode (lambda_handler E event w).1 = 400
      ∨ statusCode (lambda_handler E event w).1 = 500)
     ∧ ∃ m, body (lambda_handler E event w).1 = JObject {[ "error" := JStr m ]}).
Proof.
  destruct (lambda_handler_shape E event w)
    as [[m ->] | [[m ->] | (request_id & roast & md & ->)]].
  - right. split; [by left | by exists m].
  - right. split; [by right | by exists m].
  - left. split; [done | by exists request_id, roast, md].
Qed.

(** *** The texts sent to the chat model *)

(** X14.  The full text of a document is the text of its pages joined
    by a blank line: the text of the pages [a] followed by the pages [b]
    is the text of [a], a blank line, and the text of [b]. *)
Theorem full_text_of_more_pages (a b : list Document) :
  a ≠ [] → b ≠ [] →
  extract_full_text (a ++ b)
  = extract_full_text a ++ (nl ++ nl) ++ extract_full_text b.
Proof.
  intros Ha Hb. unfold extract_full_text. rewrite fmap_app.
  apply join_app; by destruct a, b.
Qed.

Lemma full_text_of_more_pages_witness :
  extract_full_text ([Scenario.page 0 "one"] ++ [Scenario.page 1 "two"])
  = extract_full_text [Scenario.page 0 "one"] ++ (nl ++ nl)
    ++ extract_full_text [Scenario.page 1 "two"].
Proof.
  apply (full_text_of_more_pages [Scenario.page 0 "one"] [Scenario.page 1 "two"]);
    discriminate.
Defined.

(** X15.  Only the first 3000 characters of the resume text reach the
    chat model: text after them does not change the user prompt. *)
Theorem prompt_ignores_text_beyond_3000 context (resume_text more : string) :
  (3000 ≤ String.length resume_text)%nat →
  user_prompt context (resume_text ++ more) = user_prompt context resume_text.
Proof.
  intros Hlen. unfold user_prompt. by rewrite substring_app.
Qed.

Lemma prompt_ignores_text_beyond_3000_witness :
  user_prompt "Section 1:" (filler 3000 ++ "unread")
  = user_prompt "Section 1:" (filler 3000).
Proof.
  apply (prompt_ignores_text_beyond_3000 "Section 1:" (filler 3000) "unread").
  rewrite length_filler. lia.
Defined.

(** X17.  At most the first five retrieved documents reach the prompt:
    once five are gathered, what later searches add does not change the
    context text. *)
Theorem context_ignores_documents_beyond_five (gathered later : list Document) :
  (5 ≤ length gathered)%nat →
  format_context (gathered ++ later) = format_context gathered.
Proof.
  intros Hlen. unfold format_context, context_entries.
  by rewrite take_app_le.
Qed.

Lemma context_ignores_documents_beyond_five_witness :
  format_context ((Scenario.pages ++ Scenario.pages ++ Scenario.pages)
                  ++ Scenario.pages)
  = format_context (Scenario.pages ++ Scenario.pages ++ Scenario.pages)%list.
Proof.
  apply (context_ignores_documents_beyond_five
           (Scenario.pages ++ Scenario.pages ++ Scenario.pages) Scenario.pages).
  vm_compute. lia.
Defined.

(** *** The files of a request *)

(** X19.  Every path the handler hands to the S3 download, to the PDF
    loader or to [os.remove] is [/tmp/<request_id>.pdf] for the request
    id of the decoded body, whatever the event and whatever the libraries
    do; when the body does not decode to an object, no such call is
    made. *)
Theorem calls_name_the_scratch_path E event w :
  ∃ t, trace (lambda_handler E event w).2 = (trace w ++ t)%list
       ∧ ∀ ev q, ev ∈ t → path_of ev = Some q →
           ∃ s body, body_arg event = JStr s
                     ∧ json_decode E s = Ok (JObject body)
                     ∧ q = scratch_path E body.
Proof.
  destruct (confined_lambda_handler E event w) as (t & Htrace & Hpaths).
  exists t. split; [exact Htrace|].
  intros ev q Hev Hq.
  apply (proj1 (Forall_forall _ _) Hpaths ev Hev q Hq).
Qed.

(** X20.  [os.remove] is called on the success path only: whatever the
    event and whatever the libraries do, a response with a status other
    than 200 comes from a call that removed no file. *)
Theorem removal_only_on_success E event w :
  statusCode (lambda_handler E event w).1 ≠ 200 →
  removals (trace (lambda_handler E event w).2) = removals (trace w).
Proof.
  intros Hstatus. by apply no_removal_lambda_handler.
Qed.

Lemma removal_only_on_success_witness :
  removals (trace (lambda_handler Scenario.throttled Scenario.event Scenario.cold).2)
  = removals (trace Scenario.cold).
Proof.
  apply (removal_only_on_success Scenario.throttled Scenario.event Scenario.cold).
  vm_compute. discriminate.
Defined.

(** X21.  Once the download has returned, every response other than the
    success leaves the downloaded document in [/tmp/<request_id>.pdf]:
    wherever the failure is (no page, an exception of the loader, the
    splitter, the indexer, a search or the chat model), the file is
    there after the call, with the content that was downloaded. *)
Theorem failure_keeps_scratch_file E event (body : gmap string json) blob w :
  downloaded E event body blob →
  statusCode (lambda_handler E event w).1 ≠ 200 →
  fs (lambda_handler E event w).2 !! scratch_path E body = Some blob.
Proof.
  intros Hdown Hstatus.
  rewrite (failure_after_download E event body blob w Hdown Hstatus).
  apply lookup_insert_eq.
Qed.

Lemma failure_keeps_scratch_file_witness :
  fs (lambda_handler Faults.flaky Scenario.event Scenario.cold).2
    !! scratch_path Faults.flaky Scenario.request
  = Some Scenario.blob.
Proof.
  apply (failure_keeps_scratch_file Faults.flaky Scenario.event Scenario.request
           Scenario.blob Scenario.cold).
  - faults_downloaded.
  - vm_compute. discriminate.
Defined.
